(** * dokuwikixmlrpc: the XML-RPC client wrapper and its command-line front end

    A shallow embedding of [dokuwikixmlrpc.py].  Python objects that travel
    over XML-RPC are a small inductive type of values; exceptions are an
    inductive type; every method is a function in a state-and-exception monad
    whose state holds the object the method is bound to ([self]) and the part
    of the world the module touches (the trace of network and console events
    and the two class attributes of [xmlrpclib] the module assigns).

    The remote wiki, the network and the standard library are not code of the
    module: they enter as an [environment] of oracles, which the development
    quantifies over. *)

From Stdlib Require Import String ZArith List Bool Lia.
Import ListNotations.

Set Warnings "-register-all".

Local Open Scope list_scope.
Local Open Scope string_scope.

(** ** Values *)

(** The values XML-RPC marshals, as Python sees them.  A struct is a [dict]
    with string keys; it is kept as an association list whose order stands for
    the order in which [keys()] enumerates the dict.  Doubles, dates and
    binary blobs are not modelled. *)
Inductive value : Type :=
| VNone
| VBool (b : bool)
| VInt (n : Z)
| VStr (s : string)
| VList (items : list value)
| VDict (members : list (string * value)).

(** Python's truth value testing, as used by [if data:] and [if not revision:]. *)
Definition truthy (v : value) : bool :=
  match v with
  | VNone => false
  | VBool b => b
  | VInt n => negb (n =? 0)%Z
  | VStr s => negb (s =? "")
  | VList items => match items with [] => false | _ :: _ => true end
  | VDict members => match members with [] => false | _ :: _ => true end
  end.

(** ** Errors *)

(** What [DokuWikiXMLRPCError.__init__] may be handed: an [xmlrpclib.Fault]
    or any other object. *)
Inductive pyobj : Type :=
| ObjFault (faultCode : Z) (faultString : string)
| ObjValue (v : value).

Definition is_fault (obj : pyobj) : bool :=
  match obj with
  | ObjFault _ _ => true
  | ObjValue _ => false
  end.

Record DokuWikiXMLRPCError : Type := mkXMLRPCError {
  page_id : Z;
  message : pyobj
}.

(** [DokuWikiXMLRPCError.__init__(self, obj)]. *)
Definition DokuWikiXMLRPCError_init (obj : pyobj) : DokuWikiXMLRPCError :=
  match obj with
  | ObjFault faultCode faultString =>
      {| page_id := faultCode; message := ObjValue (VStr faultString) |}
  | _ =>
      {| page_id := 0%Z; message := obj |}
  end.

Record DokuWikiURLError : Type := mkURLError {
  url_message : string
}.

(** [DokuWikiURLError.__init__(self, url)]. *)
Definition DokuWikiURLError_init (url : string) : DokuWikiURLError :=
  {| url_message := url |}.

(** [DokuWikiURLError.__str__(self)], for the class itself (a subclass would
    print its own name). *)
Definition DokuWikiURLError_str (e : DokuWikiURLError) : string :=
  "DokuWikiURLError" ++ ": Could not connect to <" ++ url_message e ++ ">".

(** The exceptions that can be in flight.  [OtherException] stands for every
    exception of the libraries that the module names nowhere ([socket.error],
    [xmlrpclib.ProtocolError], [urllib2.URLError], ...). *)
Inductive exn : Type :=
| XmlrpcFault (faultCode : Z) (faultString : string)
| RaisedXMLRPCError (e : DokuWikiXMLRPCError)
| RaisedURLError (e : DokuWikiURLError)
| ValueError
| HTTPError
| AttributeError
| TypeError
| IndexError
| KeyError
| SystemExit (status : Z)
| OtherException (name : string).

(** [isinstance(e, DokuWikiError)]: the two error classes the module defines. *)
Definition is_DokuWikiError (e : exn) : bool :=
  match e with
  | RaisedXMLRPCError _ | RaisedURLError _ => true
  | _ => false
  end.

(** ** Events *)

(** How a call through the [ServerProxy] ends: the server answers, the server
    answers with a fault, or the call fails in the library.  The last case
    covers the failures on the way ([socket.error],
    [xmlrpclib.ProtocolError]) and those before anything is sent: the proxy
    is built without [allow_none], so [xmlrpclib] refuses a [None] parameter
    with [TypeError] and an [int] outside 32 bits with [OverflowError]. *)
Inductive outcome : Type :=
| Response (v : value)
| FaultResponse (faultCode : Z) (faultString : string)
| CallFailure (name : string).

(** How [urlopen] ends. *)
Inductive url_outcome : Type :=
| Reached
| UrlValueError
| UrlHTTPError
| UrlFailure (name : string).

(** What a [print] statement is given. *)
Inductive output : Type :=
| PrintValue (v : value)                       (* print v *)
| PrintKeyValue (key : string) (v : value)     (* print '%s: %s' % (key, v) *)
| PrintText (s : string)                       (* print "<literal>" *)
| PrintUsage.                                  (* parser.print_usage() *)

Inductive error_message : Type :=
| MsgText (s : string)
| MsgError (e : exn).

Inductive event : Type :=
| EvUrlOpen (url : string) (r : url_outcome)
| EvRpc (endpoint procedure : string) (params : list value) (o : outcome)
| EvStdout (o : output)
| EvParserError (msg : error_message).

Definition is_rpc (ev : event) : bool :=
  match ev with EvRpc _ _ _ _ => true | _ => false end.

Definition is_urlopen (ev : event) : bool :=
  match ev with EvUrlOpen _ _ => true | _ => false end.

Definition is_stdout (ev : event) : bool :=
  match ev with EvStdout _ => true | _ => false end.

Definition is_rpc_of (procedure : string) (ev : event) : bool :=
  match ev with EvRpc _ p _ _ => (p =? procedure) | _ => false end.

Definition count (p : event -> bool) (evs : list event) : nat :=
  length (filter p evs).

(** ** The world outside the module *)

Record environment : Type := mkEnvironment {
  (* urllib2.urlopen, given what happened so far and the URL *)
  urlopen : list event -> string -> url_outcome;
  (* a method call on the ServerProxy: history, endpoint, procedure, parameters *)
  transport : list event -> string -> string -> list value -> outcome;
  (* urllib.urlencode on the credentials *)
  urlencode : list (string * string) -> string;
  (* int(time.time()) *)
  clock : Z
}.

Record world : Type := mkWorld {
  trace : list event;
  Transport_user_agent : option string;
  SafeTransport_user_agent : option string
}.

Definition log_event (ev : event) (w : world) : world :=
  {| trace := (trace w ++ [ev])%list;
     Transport_user_agent := Transport_user_agent w;
     SafeTransport_user_agent := SafeTransport_user_agent w |}.

(** ** A state-and-exception monad

    A raised exception keeps the state reached so far, as in Python. *)

Inductive result (A : Type) : Type :=
| Ok (a : A)
| Raise (e : exn).
Arguments Ok {A} a.
Arguments Raise {A} e.

Definition M (S A : Type) : Type := S -> result A * S.

Definition ret {S A : Type} (a : A) : M S A := fun s => (Ok a, s).

Definition raise {S A : Type} (e : exn) : M S A := fun s => (Raise e, s).

Definition bind {S A B : Type} (m : M S A) (k : A -> M S B) : M S B :=
  fun s =>
    match m s with
    | (Ok a, s') => k a s'
    | (Raise e, s') => (Raise e, s')
    end.

(** [try: m  except ...:] where [handler e] is [Some h] when a clause matches
    the exception [e]. *)
Definition try_except {S A : Type} (m : M S A) (handler : exn -> option (M S A))
  : M S A :=
  fun s =>
    match m s with
    | (Ok a, s') => (Ok a, s')
    | (Raise e, s') =>
        match handler e with
        | Some h => h s'
        | None => (Raise e, s')
        end
    end.

Definition get {S : Type} : M S S := fun s => (Ok s, s).
Definition modify {S : Type} (f : S -> S) : M S unit := fun s => (Ok tt, f s).

Declare Scope monad_scope.
Delimit Scope monad_scope with monad.
Notation "x <- m ;; k" := (bind m (fun x => k))
  (at level 61, m at next level, right associativity) : monad_scope.
Notation "m ;;; k" := (bind m (fun _ => k))
  (at level 61, right associativity) : monad_scope.
Local Open Scope monad_scope.

(** ** The client *)

(** [xmlrpclib.ServerProxy(url)]: building the proxy opens no connection. *)
Record ServerProxy : Type := mkServerProxy {
  uri : string
}.

(** The attributes of a [DokuWikiClient].  The last two are assigned late in
    [__init__]; [None] is the attribute not being there yet. *)
Record DokuWikiClient : Type := mkClient {
  _url : string;
  _user : string;
  _passwd : string;
  _user_agent : string;
  _xmlrpc : option ServerProxy;
  dokuwiki_version : option value
}.

Record client_state : Type := mkClientState {
  self : DokuWikiClient;
  outside : world
}.

Definition __version__ : string := "0.1".

Section Client.

Variable E : environment.

Definition log (ev : event) : M client_state unit :=
  modify (fun s => {| self := self s; outside := log_event ev (outside s) |}).

(** [urlopen(url)]. *)
Definition do_urlopen (url : string) : M client_state unit :=
  s <- get ;;
  let r := urlopen E (trace (outside s)) url in
  log (EvUrlOpen url r) ;;;
  match r with
  | Reached => ret tt
  | UrlValueError => raise ValueError
  | UrlHTTPError => raise HTTPError
  | UrlFailure name => raise (OtherException name)
  end.

(** A call [self._xmlrpc.<procedure>(params...)].  The event records the call
    made on the proxy, with the way the library says it ended; it is no claim
    that a request left the machine. *)
Definition xmlrpc_call (procedure : string) (params : list value)
  : M client_state value :=
  s <- get ;;
  match _xmlrpc (self s) with
  | None => raise AttributeError
  | Some proxy =>
      let o := transport E (trace (outside s)) (uri proxy) procedure params in
      log (EvRpc (uri proxy) procedure params o) ;;;
      match o with
      | Response v => ret v
      | FaultResponse faultCode faultString =>
          raise (XmlrpcFault faultCode faultString)
      | CallFailure name => raise (OtherException name)
      end
  end.

(** [except xmlrpclib.Fault, fault: raise DokuWikiXMLRPCError(fault)]. *)
Definition except_Fault {A : Type} (e : exn) : option (M client_state A) :=
  match e with
  | XmlrpcFault faultCode faultString =>
      Some (raise (RaisedXMLRPCError
                     (DokuWikiXMLRPCError_init (ObjFault faultCode faultString))))
  | _ => None
  end.

Definition _xmlrpc_init : M client_state ServerProxy :=
  s <- get ;;
  try_except (do_urlopen (_url (self s) ++ "/lib/exe/xmlrpc.php?"))
    (fun e =>
       match e with
       | ValueError => Some (raise (RaisedURLError (DokuWikiURLError_init (_url (self s)))))
       | HTTPError => Some (raise (RaisedURLError (DokuWikiURLError_init (_url (self s)))))
       | _ => None
       end) ;;;
  let url := _url (self s) ++ "/lib/exe/xmlrpc.php?"
             ++ urlencode E [("u", _user (self s)); ("p", _passwd (self s))] in
  modify (fun s =>
            {| self := self s;
               outside := {| trace := trace (outside s);
                             Transport_user_agent := Some (_user_agent (self s));
                             SafeTransport_user_agent := Some (_user_agent (self s)) |} |}) ;;;
  ret (mkServerProxy url).

Definition _dokuwiki_version : M client_state value :=
  try_except (xmlrpc_call "dokuwiki.getVersion" []) except_Fault.

Definition rpc_version_supported : M client_state value :=
  try_except (xmlrpc_call "wiki.getRPCVersionSupported" []) except_Fault.

Definition page (page_id revision : value) : M client_state value :=
  try_except
    (if negb (truthy revision)
     then xmlrpc_call "wiki.getPage" [page_id]
     else xmlrpc_call "wiki.getPageVersion" [page_id; revision])
    except_Fault.

Definition page_versions (page_id offset : value) : M client_state value :=
  try_except (xmlrpc_call "wiki.getPageVersions" [page_id; offset]) except_Fault.

Definition page_info (page_id revision : value) : M client_state value :=
  try_except
    (if negb (truthy revision)
     then xmlrpc_call "wiki.getPageInfo" [page_id]
     else xmlrpc_call "wiki.getPageInfoVersion" [page_id; revision])
    except_Fault.

Definition page_html (page_id revision : value) : M client_state value :=
  try_except
    (if negb (truthy revision)
     then xmlrpc_call "wiki.getPageHTML" [page_id]
     else xmlrpc_call "wiki.getPageHTMLVersion" [page_id; revision])
    except_Fault.

(** The body calls [wiki.putPage] as a statement and falls off the end. *)
Definition put_page (page_id text summary minor : value) : M client_state value :=
  try_except
    (let params := VDict [("sum", summary); ("minor", minor)] in
     xmlrpc_call "wiki.putPage" [page_id; text; params] ;;;
     ret VNone)
    except_Fault.

Definition all_pages : M client_state value :=
  try_except (xmlrpc_call "wiki.getAllPages" []) except_Fault.

Definition backlinks (page_id : value) : M client_state value :=
  try_except (xmlrpc_call "wiki.getBackLinks" [page_id]) except_Fault.

Definition links (page_id : value) : M client_state value :=
  try_except (xmlrpc_call "wiki.listLinks" [page_id]) except_Fault.

Definition recent_changes (timestamp : value) : M client_state value :=
  try_except (xmlrpc_call "wiki.getRecentChanges" [timestamp]) except_Fault.

Definition acl_check (page_id : value) : M client_state value :=
  try_except (xmlrpc_call "wiki.aclCheck" [page_id]) except_Fault.

Definition put_file (namespace filename name overwrite : value)
  : M client_state value :=
  ret VNone.

Definition list_files (namespace : value) : M client_state value :=
  ret VNone.

(** [DokuWikiClient.__init__(self, url, user, passwd)], run on the fresh
    object: the four plain assignments, then the rest of the body. *)
Definition DokuWikiClient_init_body : M client_state unit :=
  _xmlrpc_init ;;;
  proxy <- _xmlrpc_init ;;
  modify (fun s =>
            {| self := {| _url := _url (self s); _user := _user (self s);
                          _passwd := _passwd (self s);
                          _user_agent := _user_agent (self s);
                          _xmlrpc := Some proxy;
                          dokuwiki_version := dokuwiki_version (self s) |};
               outside := outside s |}) ;;;
  version <- try_except _dokuwiki_version except_Fault ;;
  modify (fun s =>
            {| self := {| _url := _url (self s); _user := _user (self s);
                          _passwd := _passwd (self s);
                          _user_agent := _user_agent (self s);
                          _xmlrpc := _xmlrpc (self s);
                          dokuwiki_version := Some version |};
               outside := outside s |}).

Definition fresh_client (url user passwd : string) : DokuWikiClient :=
  {| _url := url; _user := user; _passwd := passwd;
     _user_agent := "DokuWikiXMLRPC " ++ __version__ ++ "by (www.chimeric.de)";
     _xmlrpc := None; dokuwiki_version := None |}.

(** The expression [DokuWikiClient(url, user, passwd)]: the new object when
    [__init__] returns, the exception when it raises. *)
Definition new_DokuWikiClient (url user passwd : string) : M world DokuWikiClient :=
  fun w =>
    match DokuWikiClient_init_body
            {| self := fresh_client url user passwd; outside := w |} with
    | (Ok _, s) => (Ok (self s), outside s)
    | (Raise e, s) => (Raise e, outside s)
    end.

End Client.

(** ** Methods looked up by name *)

(** The public methods of [DokuWikiClient]. *)
Inductive method : Type :=
| Mrpc_version_supported
| Mpage
| Mpage_versions
| Mpage_info
| Mpage_html
| Mput_page
| Mall_pages
| Mbacklinks
| Mlinks
| Mrecent_changes
| Macl_check
| Mput_file
| Mlist_files.

Definition method_name (m : method) : string :=
  match m with
  | Mrpc_version_supported => "rpc_version_supported"
  | Mpage => "page"
  | Mpage_versions => "page_versions"
  | Mpage_info => "page_info"
  | Mpage_html => "page_html"
  | Mput_page => "put_page"
  | Mall_pages => "all_pages"
  | Mbacklinks => "backlinks"
  | Mlinks => "links"
  | Mrecent_changes => "recent_changes"
  | Macl_check => "acl_check"
  | Mput_file => "put_file"
  | Mlist_files => "list_files"
  end.

Definition public_methods : list method :=
  [Mrpc_version_supported; Mpage; Mpage_versions; Mpage_info; Mpage_html;
   Mput_page; Mall_pages; Mbacklinks; Mlinks; Mrecent_changes; Macl_check;
   Mput_file; Mlist_files].

(** A positional call of a bound method: the [def] line of each method gives
    its arity and the defaults of the parameters left out; any other number of
    arguments is a [TypeError] before the body runs. *)
Definition call_method (E : environment) (m : method) (args : list value)
  : M client_state value :=
  match m, args with
  | Mrpc_version_supported, [] => rpc_version_supported E
  | Mpage, [page_id] => page E page_id VNone
  | Mpage, [page_id; revision] => page E page_id revision
  | Mpage_versions, [page_id] => page_versions E page_id (VInt 0)
  | Mpage_versions, [page_id; offset] => page_versions E page_id offset
  | Mpage_info, [page_id] => page_info E page_id VNone
  | Mpage_info, [page_id; revision] => page_info E page_id revision
  | Mpage_html, [page_id] => page_html E page_id VNone
  | Mpage_html, [page_id; revision] => page_html E page_id revision
  | Mput_page, [page_id; text] => put_page E page_id text (VStr "") VNone
  | Mput_page, [page_id; text; summary] => put_page E page_id text summary VNone
  | Mput_page, [page_id; text; summary; minor] =>
      put_page E page_id text summary minor
  | Mall_pages, [] => all_pages E
  | Mbacklinks, [page_id] => backlinks E page_id
  | Mlinks, [page_id] => links E page_id
  | Mrecent_changes, [timestamp] => recent_changes E timestamp
  | Macl_check, [page_id] => acl_check E page_id
  | Mput_file, [namespace; filename] =>
      put_file namespace filename (VStr "") VNone
  | Mput_file, [namespace; filename; name] =>
      put_file namespace filename name VNone
  | Mput_file, [namespace; filename; name; overwrite] =>
      put_file namespace filename name overwrite
  | Mlist_files, [namespace] => list_files namespace
  | _, _ => raise TypeError
  end.

(** What [self.dokuwiki.__getattribute__(name)] finds: a public method, or
    one of the other attributes of the object: those [__init__] assigns, the
    other names the class body defines, and the names every new-style
    instance has from its class and from [object] (as Python 2.7 lists
    them). *)
Inductive attribute : Type :=
| BoundMethod (m : method)
| OtherAttribute.

Definition other_attributes : list string :=
  ["_url"; "_user"; "_passwd"; "_user_agent"; "_xmlrpc"; "dokuwiki_version";
   "_xmlrpc_init"; "_dokuwiki_version";
   "__init__"; "__doc__"; "__module__"; "__dict__"; "__weakref__";
   "__class__"; "__delattr__"; "__format__"; "__getattribute__"; "__hash__";
   "__new__"; "__reduce__"; "__reduce_ex__"; "__repr__"; "__setattr__";
   "__sizeof__"; "__str__"; "__subclasshook__"].

Definition getattribute (name : string) : option attribute :=
  match find (fun m => method_name m =? name) public_methods with
  | Some m => Some (BoundMethod m)
  | None =>
      if existsb (fun a => a =? name) other_attributes
      then Some OtherAttribute
      else None
  end.

(** ** The command-line front end *)

(** [parser.values], as far as [Callback] reads it. *)
Record Values : Type := mkValues {
  user : option string;
  wiki : option string;
  passwd : option string;
  timestamp : option Z
}.

(** The option parser at the moment it meets an operation flag: the values
    collected so far and the arguments still to be read.  [optparse] itself
    belongs to the standard library and is represented by this state. *)
Record OptionParser : Type := mkParser {
  values : Values;
  rargs : list string
}.

(** The state of a [Callback] object at work.  [self._parser] is the parser
    object itself, not a copy, so the state holds one parser. *)
Record cli_state : Type := mkCli {
  parser : OptionParser;
  dokuwiki : option DokuWikiClient;
  cli_world : world
}.

Definition newline : string := String (Ascii.ascii_of_nat 10) EmptyString.

(** A timestamp as the Python value it is: [None] or an [int]. *)
Definition timestamp_value (t : option Z) : value :=
  match t with
  | Some n => VInt n
  | None => VNone
  end.

(** [d[key]]. *)
Fixpoint getitem (members : list (string * value)) (key : string) : option value :=
  match members with
  | [] => None
  | (k, v) :: rest => if k =? key then Some v else getitem rest key
  end.

Section FrontEnd.

Variable E : environment.

Definition cli_log (ev : event) : M cli_state unit :=
  modify (fun s => {| parser := parser s; dokuwiki := dokuwiki s;
                      cli_world := log_event ev (cli_world s) |}).

(** A [print] statement. *)
Definition say (o : output) : M cli_state unit := cli_log (EvStdout o).

(** [parser.error(msg)]: the message goes to standard error and the process
    exits with status 2. *)
Definition parser_error (msg : error_message) : M cli_state unit :=
  cli_log (EvParserError msg) ;;; raise (SystemExit 2).

Definition print_usage : M cli_state unit := say PrintUsage.

(** A method of [self.dokuwiki] run from the front end. *)
Definition on_client {A : Type} (m : M client_state A) : M cli_state A :=
  fun s =>
    match dokuwiki s with
    | None => (Raise AttributeError, s)
    | Some c =>
        match m {| self := c; outside := cli_world s |} with
        | (r, cs) =>
            (r, {| parser := parser s; dokuwiki := Some (self cs);
                   cli_world := outside cs |})
        end
    end.

(** [self.dokuwiki = DokuWikiClient(url, user, passwd)]. *)
Definition assign_dokuwiki (url user passwd : string) : M cli_state unit :=
  fun s =>
    match new_DokuWikiClient E url user passwd (cli_world s) with
    | (Ok c, w) =>
        (Ok tt, {| parser := parser s; dokuwiki := Some c; cli_world := w |})
    | (Raise e, w) =>
        (Raise e, {| parser := parser s; dokuwiki := dokuwiki s; cli_world := w |})
    end.

(** [self._parser.rargs.pop()]: the last remaining argument. *)
Definition rargs_pop : M cli_state value :=
  s <- get ;;
  match rev (rargs (parser s)) with
  | [] => raise IndexError
  | last :: front =>
      modify (fun s => {| parser := {| values := values (parser s);
                                       rargs := rev front |};
                          dokuwiki := dokuwiki s; cli_world := cli_world s |}) ;;;
      ret (VStr last)
  end%list.

Definition _get_page_id : M cli_state value :=
  try_except rargs_pop
    (fun e =>
       match e with
       | IndexError =>
           Some (parser_error (MsgText "You have to specify a Wiki page.") ;;;
                 ret VNone)
       | _ => None
       end).

(** [self.dokuwiki.__getattribute__(option)]. *)
Definition dokuwiki_getattribute (opt : string) : M cli_state attribute :=
  s <- get ;;
  match dokuwiki s with
  | None => raise AttributeError
  | Some _ =>
      match getattribute opt with
      | Some a => ret a
      | None => raise AttributeError
      end
  end.

(** Calling what was looked up; an attribute that is no method fails. *)
Definition call_attribute (a : attribute) (args : list value) : M cli_state value :=
  match a with
  | BoundMethod m => on_client (call_method E m args)
  | OtherAttribute => raise TypeError
  end.

Definition set_timestamp (t : option Z) : M cli_state unit :=
  modify (fun s => {| parser := {| values := {| user := user (values (parser s));
                                                wiki := wiki (values (parser s));
                                                passwd := passwd (values (parser s));
                                                timestamp := t |};
                                   rargs := rargs (parser s) |};
                      dokuwiki := dokuwiki s; cli_world := cli_world s |}).

Definition get_timestamp : M cli_state value :=
  s <- get ;; ret (timestamp_value (timestamp (values (parser s)))).

(** [Callback.dispatch(self, option)]: the pair it returns, or [None] when no
    branch is taken. *)
Definition dispatch (opt : string) : M cli_state (option (value * string)) :=
  callback <- dokuwiki_getattribute opt ;;
  if (opt =? "page") || (opt =? "page_html") then
    page_id <- _get_page_id ;;
    t <- get_timestamp ;;
    if negb (truthy t) then
      f <- dokuwiki_getattribute opt ;;
      data <- call_attribute f [page_id] ;;
      ret (Some (data, "plain"))
    else
      f <- dokuwiki_getattribute opt ;;
      t' <- get_timestamp ;;
      data <- call_attribute f [page_id; t'] ;;
      ret (Some (data, "plain"))
  else if opt =? "backlinks" then
    page_id <- _get_page_id ;;
    f <- dokuwiki_getattribute opt ;;
    data <- call_attribute f [page_id] ;;
    ret (Some (data, "list"))
  else if (opt =? "page_info") || (opt =? "page_versions") || (opt =? "links") then
    page_id <- _get_page_id ;;
    f <- dokuwiki_getattribute opt ;;
    data <- call_attribute f [page_id] ;;
    ret (Some (data, "dict"))
  else if opt =? "all_pages" then
    f <- dokuwiki_getattribute opt ;;
    data <- call_attribute f [] ;;
    ret (Some (data, "list"))
  else if opt =? "recent_changes" then
    t <- get_timestamp ;;
    (if negb (truthy t) then set_timestamp (Some (clock E)) else ret tt) ;;;
    t' <- get_timestamp ;;
    data <- call_attribute callback [t'] ;;
    ret (Some (data, "dict"))
  else
    ret None.

(** [for item in data:], for the values that can be iterated. *)
Definition iterate (data : value) : M cli_state (list value) :=
  match data with
  | VList items => ret items
  | VStr s => ret (map (fun c => VStr (String c EmptyString)) (list_ascii_of_string s))
  | VDict members => ret (map (fun kv => VStr (fst kv)) members)
  | _ => raise TypeError
  end.

(** [for item in data: print item]. *)
Fixpoint print_items (items : list value) : M cli_state unit :=
  match items with
  | [] => ret tt
  | item :: rest => say (PrintValue item) ;;; print_items rest
  end%list.

(** [for key in d.keys(): print '%s: %s' % (key, d[key])], the keys given. *)
Fixpoint print_keys (members : list (string * value)) (keys : list string)
  : M cli_state unit :=
  match keys with
  | [] => ret tt
  | key :: rest =>
      match getitem members key with
      | Some v => say (PrintKeyValue key v) ;;; print_keys members rest
      | None => raise KeyError
      end
  end%list.

(** The same loop on an object: [keys()] exists on a dict only. *)
Definition print_mapping (d : value) : M cli_state unit :=
  match d with
  | VDict members => print_keys members (map fst members)
  | _ => raise AttributeError
  end.

(** The outer loop of the ['dict'] format on a list: every item's lines, then
    [print "\n"]. *)
Fixpoint print_mappings (items : list value) : M cli_state unit :=
  match items with
  | [] => ret tt
  | item :: rest =>
      print_mapping item ;;; say (PrintText newline) ;;; print_mappings rest
  end%list.

(** The body of [if data:] in [Callback.__init__]. *)
Definition print_formatted (data : value) (format : string) : M cli_state unit :=
  if format =? "plain" then
    say (PrintValue data)
  else if format =? "list" then
    items <- iterate data ;; print_items items
  else if format =? "dict" then
    match data with
    | VList items => print_mappings items
    | _ => print_mapping data
    end
  else
    ret tt.

(** [Callback.__init__(self, option, opt_str, value, parser)], with [dest]
    for [option.dest]. *)
Definition Callback_init (dest : string) : M cli_state unit :=
  s <- get ;;
  match user (values (parser s)), wiki (values (parser s)),
        passwd (values (parser s)) with
  | Some u, Some w, Some p =>
      if negb (u =? "") && negb (w =? "") && negb (p =? "") then
        try_except (assign_dokuwiki w u p)
          (fun e =>
             match e with
             | RaisedXMLRPCError _ => Some (parser_error (MsgError e))
             | RaisedURLError _ => Some (parser_error (MsgError e))
             | _ => None
             end) ;;;
        r <- dispatch dest ;;
        match r with
        | None => raise TypeError
        | Some (data, format) =>
            if truthy data then print_formatted data format else ret tt
        end
      else print_usage
  | _, _, _ => print_usage
  end.

End FrontEnd.

(** The operation flags [main] registers with [Callback], by their [dest]. *)
Inductive flag : Type :=
| Fraw            (* --raw *)
| Fhtml           (* --html *)
| Finfo           (* --info *)
| Fchanges        (* --changes *)
| Frevisions      (* --revisions *)
| Fbacklinks      (* --backlinks *)
| Fallpages       (* --allpages *)
| Flinks.         (* --links *)

Definition dest (f : flag) : string :=
  match f with
  | Fraw => "page"
  | Fhtml => "page_html"
  | Finfo => "page_info"
  | Fchanges => "recent_changes"
  | Frevisions => "page_versions"
  | Fbacklinks => "backlinks"
  | Fallpages => "all_pages"
  | Flinks => "links"
  end.

(** The format [dispatch] pairs with the data of each flag. *)
Definition format_of (f : flag) : string :=
  match f with
  | Fraw | Fhtml => "plain"
  | Fbacklinks | Fallpages => "list"
  | Finfo | Frevisions | Flinks | Fchanges => "dict"
  end.

(** What [main] asks of an option: store the argument that follows, store it
    as an [int], or call [Callback]. *)
Inductive option_action : Type :=
| StoreString
| StoreInt
| CallCallback.

Record option_spec : Type := mkOption {
  opt_strings : list string;
  opt_dest : string;
  opt_action : option_action
}.

(** The options [main] adds to the parser, in order. *)
Definition main_options : list option_spec :=
  [ {| opt_strings := ["-u"; "--user"]; opt_dest := "user";
       opt_action := StoreString |};
    {| opt_strings := ["-w"; "--wiki"]; opt_dest := "wiki";
       opt_action := StoreString |};
    {| opt_strings := ["-p"; "--passwd"]; opt_dest := "passwd";
       opt_action := StoreString |};
    {| opt_strings := ["--raw"]; opt_dest := "page";
       opt_action := CallCallback |};
    {| opt_strings := ["--html"]; opt_dest := "page_html";
       opt_action := CallCallback |};
    {| opt_strings := ["--info"]; opt_dest := "page_info";
       opt_action := CallCallback |};
    {| opt_strings := ["--changes"]; opt_dest := "recent_changes";
       opt_action := CallCallback |};
    {| opt_strings := ["--revisions"]; opt_dest := "page_versions";
       opt_action := CallCallback |};
    {| opt_strings := ["--backlinks"]; opt_dest := "backlinks";
       opt_action := CallCallback |};
    {| opt_strings := ["--allpages"]; opt_dest := "all_pages";
       opt_action := CallCallback |};
    {| opt_strings := ["--links"]; opt_dest := "links";
       opt_action := CallCallback |};
    {| opt_strings := ["--time"]; opt_dest := "timestamp";
       opt_action := StoreInt |} ].

(** A process starts with nothing behind it: no event yet, [xmlrpclib]'s class
    attributes untouched, no client. *)
Definition initial_world : world :=
  {| trace := []; Transport_user_agent := None; SafeTransport_user_agent := None |}.

Definition initial_cli_state (p : OptionParser) : cli_state :=
  {| parser := p; dokuwiki := None; cli_world := initial_world |}.

(** One run of the command line in which the parser meets the operation flag
    [f] in state [p]. *)
Definition run (E : environment) (f : flag) (p : OptionParser)
  : result unit * cli_state :=
  Callback_init E (dest f) (initial_cli_state p).

Definition stdout_of (evs : list event) : list output :=
  flat_map (fun ev => match ev with EvStdout o => [o] | _ => [] end) evs.

Definition rpcs_of (evs : list event) : list string :=
  flat_map (fun ev => match ev with EvRpc _ p _ _ => [p] | _ => [] end) evs.

(** * The vocabulary of the properties *)

(** ** Remote calls *)

(** What a method whose body is one guarded remote call hands back for each
    way the call can end. *)
Definition reply (o : outcome) : result value :=
  match o with
  | Response v => Ok v
  | FaultResponse faultCode faultString =>
      Raise (RaisedXMLRPCError
               (DokuWikiXMLRPCError_init (ObjFault faultCode faultString)))
  | CallFailure name => Raise (OtherException name)
  end.

(** The state after one remote call was logged. *)
Definition called (s : client_state) (endpoint procedure : string)
  (params : list value) (o : outcome) : client_state :=
  {| self := self s;
     outside := log_event (EvRpc endpoint procedure params o) (outside s) |}.

(** One step of a public method, seen from outside: either nothing happened
    in the world, or exactly one remote call was made and its outcome decides
    the result. *)
Inductive method_step (E : environment) (s : client_state)
  : result value -> client_state -> Prop :=
| step_silent (r : result value) :
    r = Ok VNone \/ r = Raise TypeError \/ r = Raise AttributeError ->
    method_step E s r s
| step_call (proxy : ServerProxy) (procedure : string) (params : list value)
    (o : outcome) (r : result value) :
    _xmlrpc (self s) = Some proxy ->
    o = transport E (trace (outside s)) (uri proxy) procedure params ->
    r = reply o \/ (exists v, o = Response v /\ r = Ok VNone) ->
    method_step E s r (called s (uri proxy) procedure params o).

(** ** Construction *)

(** The URL [_xmlrpc_init] opens to see whether the wiki is there. *)
Definition check_url (url : string) : string := url ++ "/lib/exe/xmlrpc.php?".

(** The URL the [ServerProxy] is built on. *)
Definition endpoint_of (E : environment) (url user passwd : string) : string :=
  url ++ "/lib/exe/xmlrpc.php?" ++ urlencode E [("u", user); ("p", passwd)].

(** The object a successful [__init__] leaves behind. *)
Definition built_client (E : environment) (url user passwd : string) (version : value)
  : DokuWikiClient :=
  {| _url := url; _user := user; _passwd := passwd;
     _user_agent := "DokuWikiXMLRPC " ++ __version__ ++ "by (www.chimeric.de)";
     _xmlrpc := Some (mkServerProxy (endpoint_of E url user passwd));
     dokuwiki_version := Some version |}.

(** The events of a successful construction, in order. *)
Definition construction_events (E : environment) (url user passwd : string)
  (version : value) : list event :=
  [EvUrlOpen (check_url url) Reached;
   EvUrlOpen (check_url url) Reached;
   EvRpc (endpoint_of E url user passwd) "dokuwiki.getVersion" [] (Response version)].

(** The state [_xmlrpc_init] leaves when [urlopen] ended with [r]. *)
Definition after_check (s : client_state) (r : url_outcome) : client_state :=
  let w := log_event (EvUrlOpen (check_url (_url (self s))) r) (outside s) in
  match r with
  | Reached =>
      {| self := self s;
         outside := {| trace := trace w;
                       Transport_user_agent := Some (_user_agent (self s));
                       SafeTransport_user_agent := Some (_user_agent (self s)) |} |}
  | _ => {| self := self s; outside := w |}
  end.

(** ** Wikis to run the model on *)

(** [urlencode] on plain words, which need no quoting. *)
Fixpoint plain_urlencode (fields : list (string * string)) : string :=
  match fields with
  | [] => ""
  | [(k, v)] => k ++ "=" ++ v
  | (k, v) :: rest => k ++ "=" ++ v ++ "&" ++ plain_urlencode rest
  end.

(** A reachable wiki whose server answers every call by [answer]. *)
Definition wiki_with (answer : string -> list value -> outcome) : environment :=
  {| urlopen := fun _ _ => Reached;
     transport := fun _ _ procedure params => answer procedure params;
     urlencode := plain_urlencode;
     clock := 1226102400%Z |}.

(** The answers of a small wiki; [wiki.aclCheck] always faults. *)
Definition demo_answer (procedure : string) (params : list value) : outcome :=
  if procedure =? "dokuwiki.getVersion" then Response (VStr "Release 2008-05-05")
  else if procedure =? "wiki.putPage" then Response (VBool true)
  else if procedure =? "wiki.getPage" then Response (VStr "====== Start ======")
  else if procedure =? "wiki.getAllPages" then
    Response (VList [VDict [("id", VStr "start"); ("size", VInt 19)];
                     VDict [("id", VStr "wiki:syntax"); ("size", VInt 4711)]])
  else if procedure =? "wiki.getBackLinks" then
    Response (VList [VStr "wiki:welcome"; VStr "sidebar"])
  else if procedure =? "wiki.getPageInfo" then
    Response (VDict [("name", VStr "start"); ("version", VInt 1210000000)])
  else if procedure =? "wiki.aclCheck" then FaultResponse 1 "No such page"
  else Response (VList []).

Definition demo_wiki : environment := wiki_with demo_answer.

(** The same wiki behind a network that drops every call. *)
Definition unplugged_wiki : environment :=
  {| urlopen := fun _ _ => Reached;
     transport := fun _ _ _ _ => CallFailure "socket.error";
     urlencode := plain_urlencode;
     clock := 1226102400%Z |}.

(** The client a construction against [demo_wiki] yields. *)
Definition demo_client : DokuWikiClient :=
  built_client demo_wiki "http://wiki.example.org" "admin" "secret"
    (VStr "Release 2008-05-05").

Definition demo_state : client_state :=
  {| self := demo_client; outside := initial_world |}.

(** ** Sequences of calls *)

(** The client after a sequence of calls, each of which may return or raise. *)
Definition after_calls (E : environment) (calls : list (method * list value))
  (s : client_state) : client_state :=
  fold_left (fun s c => snd (call_method E (fst c) (snd c) s)) calls s.

(** The methods that hand their response back: every remote-bound method
    other than [put_page]. *)
Definition passes_response (m : method) : bool :=
  match m with
  | Mput_page | Mput_file | Mlist_files => false
  | _ => true
  end.

(** ** Printing *)

(** The state after the front end printed [outs]. *)
Definition emit (outs : list output) (s : cli_state) : cli_state :=
  {| parser := parser s; dokuwiki := dokuwiki s;
     cli_world := {| trace := (trace (cli_world s) ++ map EvStdout outs)%list;
                     Transport_user_agent := Transport_user_agent (cli_world s);
                     SafeTransport_user_agent :=
                       SafeTransport_user_agent (cli_world s) |} |}.

(** A computation that does nothing but print [outs] and end in [r]. *)
Definition prints (m : M cli_state unit) (r : result unit) (outs : list output)
  : Prop :=
  forall s, m s = (r, emit outs s).

(** What the formatting step ends in and prints, read off a run of it. *)
Definition printed (data : value) (format : string) : result unit * list output :=
  match print_formatted data format
          {| parser := {| values := {| user := None; wiki := None; passwd := None;
                                       timestamp := None |};
                          rargs := [] |};
             dokuwiki := None; cli_world := initial_world |} with
  | (r, s) => (r, stdout_of (trace (cli_world s)))
  end.

(** The line of one member of a mapping. *)
Definition member_line (kv : string * value) : output :=
  PrintKeyValue (fst kv) (snd kv).

(** The lines of a list of mappings: each mapping's members, then the text of
    [print "\n"]. *)
Definition mapping_block (members : list (string * value)) : list output :=
  (map member_line members ++ [PrintText newline])%list.

(** ** Runs of the front end *)

(** The flags whose branch of [dispatch] calls [_get_page_id]. *)
Definition needs_page (f : flag) : bool :=
  match f with
  | Fallpages | Fchanges => false
  | _ => true
  end.

(** The remote procedure and parameters the flag [f] leads to, given the
    timestamp [t] of [--time] and the page argument. *)
Definition request_of (E : environment) (f : flag) (t page : value)
  : string * list value :=
  match f with
  | Fraw =>
      if truthy t then ("wiki.getPageVersion", [page; t])
      else ("wiki.getPage", [page])
  | Fhtml =>
      if truthy t then ("wiki.getPageHTMLVersion", [page; t])
      else ("wiki.getPageHTML", [page])
  | Finfo => ("wiki.getPageInfo", [page])
  | Frevisions => ("wiki.getPageVersions", [page; VInt 0])
  | Fbacklinks => ("wiki.getBackLinks", [page])
  | Flinks => ("wiki.listLinks", [page])
  | Fallpages => ("wiki.getAllPages", [])
  | Fchanges => ("wiki.getRecentChanges", [if truthy t then t else VInt (clock E)])
  end.

(** The page argument [_get_page_id] takes: the last one left. *)
Definition page_argument (p : OptionParser) : option string :=
  match rev (rargs p) with
  | [] => None
  | last :: _ => Some last
  end.

(** The complaint of [_get_page_id] when no argument is left. *)
Definition no_page_given : event :=
  EvParserError (MsgText "You have to specify a Wiki page.").

(** What the run ends in and prints once the dispatched call ended in [o]. *)
Definition ending (f : flag) (o : outcome) : result unit * list output :=
  match o with
  | Response data =>
      if truthy data then printed data (format_of f) else (Ok tt, [])
  | FaultResponse faultCode faultString =>
      (Raise (RaisedXMLRPCError
                (DokuWikiXMLRPCError_init (ObjFault faultCode faultString))), [])
  | CallFailure name => (Raise (OtherException name), [])
  end.

(** The test [parser.values.user and parser.values.wiki and
    parser.values.passwd]. *)
Definition credentials_given (p : OptionParser) : bool :=
  match user (values p), wiki (values p), passwd (values p) with
  | Some u, Some w, Some pw => negb (u =? "") && negb (w =? "") && negb (pw =? "")
  | _, _, _ => false
  end.

(** The ways a run can go, by its result and its trace. *)
Inductive run_outcome (E : environment) (f : flag) (p : OptionParser)
  : result unit -> list event -> Prop :=
| run_usage :
    credentials_given p = false ->
    run_outcome E f p (Ok tt) [EvStdout PrintUsage]
| run_no_client (e : exn) (evs : list event) :
    credentials_given p = true ->
    stdout_of evs = [] ->
    rpcs_of evs = [] \/ rpcs_of evs = ["dokuwiki.getVersion"] ->
    run_outcome E f p (Raise e) evs
| run_no_page (u wk pw : string) (version : value) :
    credentials_given p = true ->
    user (values p) = Some u -> wiki (values p) = Some wk ->
    passwd (values p) = Some pw ->
    needs_page f = true -> page_argument p = None ->
    run_outcome E f p (Raise (SystemExit 2))
      (construction_events E wk u pw version ++ [no_page_given])%list
| run_operation (u wk pw : string) (version : value) (page : string)
    (o : outcome) :
    credentials_given p = true ->
    user (values p) = Some u -> wiki (values p) = Some wk ->
    passwd (values p) = Some pw ->
    needs_page f = false \/ page_argument p = Some page ->
    o = transport E (construction_events E wk u pw version)
          (endpoint_of E wk u pw)
          (fst (request_of E f (timestamp_value (timestamp (values p))) (VStr page)))
          (snd (request_of E f (timestamp_value (timestamp (values p))) (VStr page))) ->
    run_outcome E f p (fst (ending f o))
      (construction_events E wk u pw version ++
       [EvRpc (endpoint_of E wk u pw)
          (fst (request_of E f (timestamp_value (timestamp (values p))) (VStr page)))
          (snd (request_of E f (timestamp_value (timestamp (values p))) (VStr page)))
          o] ++
       map EvStdout (snd (ending f o)))%list.

(** The parser at the operation flag of
    [-u admin -w http://wiki.example.org -p secret <flag> start]. *)
Definition demo_parser : OptionParser :=
  {| values := {| user := Some "admin"; wiki := Some "http://wiki.example.org";
                  passwd := Some "secret"; timestamp := None |};
     rargs := ["start"] |}.

(** A wiki whose every operation answers with a list of two strings. *)
Definition listing_wiki : environment :=
  wiki_with (fun procedure _ =>
               if procedure =? "dokuwiki.getVersion"
               then Response (VStr "Release 2008-05-05")
               else Response (VList [VStr "a"; VStr "b"])).

(** A wiki whose every operation answers with an empty list. *)
Definition empty_wiki : environment :=
  wiki_with (fun procedure _ =>
               if procedure =? "dokuwiki.getVersion"
               then Response (VStr "Release 2008-05-05")
               else Response (VList [])).

Definition is_mapping (v : value) : bool :=
  match v with VDict _ => true | _ => false end.

(** The formatting the specification words describe, in which the structure
    of the result selects the format: a mapping or a list of mappings as
    [key: value] lines, any other list one item per line, a scalar as it is. *)
Definition spec_format_by_structure (data : value) : list output :=
  match data with
  | VDict members => map member_line members
  | VList items =>
      if forallb is_mapping items
      then flat_map (fun item => match item with
                                 | VDict members => map member_line members
                                 | _ => []
                                 end) items
      else map PrintValue items
  | _ => [PrintValue data]
  end.

(** ** The table of remote calls *)

(** The remote procedure and the parameters a positional call of a public
    method sends; [None] for the two stubs and for a call the [def] line
    rejects. *)
Definition remote_request (m : method) (args : list value)
  : option (string * list value) :=
  match m, args with
  | Mrpc_version_supported, [] => Some ("wiki.getRPCVersionSupported", [])
  | Mpage, [page_id] => Some ("wiki.getPage", [page_id])
  | Mpage, [page_id; revision] =>
      if truthy revision then Some ("wiki.getPageVersion", [page_id; revision])
      else Some ("wiki.getPage", [page_id])
  | Mpage_versions, [page_id] => Some ("wiki.getPageVersions", [page_id; VInt 0])
  | Mpage_versions, [page_id; offset] =>
      Some ("wiki.getPageVersions", [page_id; offset])
  | Mpage_info, [page_id] => Some ("wiki.getPageInfo", [page_id])
  | Mpage_info, [page_id; revision] =>
      if truthy revision
      then Some ("wiki.getPageInfoVersion", [page_id; revision])
      else Some ("wiki.getPageInfo", [page_id])
  | Mpage_html, [page_id] => Some ("wiki.getPageHTML", [page_id])
  | Mpage_html, [page_id; revision] =>
      if truthy revision
      then Some ("wiki.getPageHTMLVersion", [page_id; revision])
      else Some ("wiki.getPageHTML", [page_id])
  | Mput_page, [page_id; text] =>
      Some ("wiki.putPage",
            [page_id; text; VDict [("sum", VStr ""); ("minor", VNone)]])
  | Mput_page, [page_id; text; summary] =>
      Some ("wiki.putPage",
            [page_id; text; VDict [("sum", summary); ("minor", VNone)]])
  | Mput_page, [page_id; text; summary; minor] =>
      Some ("wiki.putPage",
            [page_id; text; VDict [("sum", summary); ("minor", minor)]])
  | Mall_pages, [] => Some ("wiki.getAllPages", [])
  | Mbacklinks, [page_id] => Some ("wiki.getBackLinks", [page_id])
  | Mlinks, [page_id] => Some ("wiki.listLinks", [page_id])
  | Mrecent_changes, [timestamp] => Some ("wiki.getRecentChanges", [timestamp])
  | Macl_check, [page_id] => Some ("wiki.aclCheck", [page_id])
  | _, _ => None
  end.

(** The bounds of an XML-RPC [int] ([xmlrpclib.MAXINT], [xmlrpclib.MININT]). *)
Definition MAXINT : Z := 2147483647.
Definition MININT : Z := -2147483648.

(** The values [xmlrpclib] marshals when [allow_none] is off, as it is for
    the proxy of line 123: no [None] anywhere, every [int] within 32 bits. *)
Fixpoint marshals (v : value) : bool :=
  match v with
  | VNone => false
  | VBool _ => true
  | VInt n => (MININT <=? n)%Z && (n <=? MAXINT)%Z
  | VStr _ => true
  | VList items => forallb marshals items
  | VDict members => forallb (fun kv => marshals (snd kv)) members
  end.

(** What the caller gets for each way the one call of method [m] can end. *)
Definition handed_back (m : method) (o : outcome) : result value :=
  match m, o with
  | Mput_page, Response _ => Ok VNone
  | _, _ => reply o
  end.

(** The world after one more event, for the front end. *)
Definition cli_logged (ev : event) (s : cli_state) : cli_state :=
  {| parser := parser s; dokuwiki := dokuwiki s;
     cli_world := log_event ev (cli_world s) |}.

(** The parser with its remaining arguments replaced. *)
Definition with_rargs (front : list string) (s : cli_state) : cli_state :=
  {| parser := {| values := values (parser s); rargs := front |};
     dokuwiki := dokuwiki s; cli_world := cli_world s |}.

(** The parser with its timestamp replaced. *)
Definition with_timestamp (t : option Z) (s : cli_state) : cli_state :=
  {| parser := {| values := {| user := user (values (parser s));
                               wiki := wiki (values (parser s));
                               passwd := passwd (values (parser s));
                               timestamp := t |};
                  rargs := rargs (parser s) |};
     dokuwiki := dokuwiki s; cli_world := cli_world s |}.

(** The [dest]s [dispatch] has a branch for. *)
Definition dispatched_names : list string :=
  ["page"; "page_html"; "backlinks"; "page_info"; "page_versions"; "links";
   "all_pages"; "recent_changes"].

(** Whether a value is a mapping, for the items of a list. *)
Definition not_a_mapping (v : value) : Prop :=
  match v with VDict _ => False | _ => True end.

(** The one-character strings a [for] loop over a string yields. *)
Definition characters (s : string) : list value :=
  map (fun c => VStr (String c EmptyString)) (list_ascii_of_string s).

Definition is_parser_error (ev : event) : bool :=
  match ev with EvParserError _ => true | _ => false end.

(** ** More wikis *)

(** A wiki whose URL answers with an HTTP error. *)
Definition unreachable_wiki : environment :=
  {| urlopen := fun _ _ => UrlHTTPError;
     transport := fun _ _ procedure params => demo_answer procedure params;
     urlencode := plain_urlencode;
     clock := 1226102400%Z |}.

(** A host that refuses the connection: [urlopen] raises [urllib2.URLError]. *)
Definition refusing_wiki : environment :=
  {| urlopen := fun _ _ => UrlFailure "urllib2.URLError";
     transport := fun _ _ procedure params => demo_answer procedure params;
     urlencode := plain_urlencode;
     clock := 1226102400%Z |}.

(** A reachable wiki that answers every call with a fault. *)
Definition forbidding_wiki : environment :=
  wiki_with (fun _ _ => FaultResponse 403 "Forbidden").

(** A reachable wiki whose handshake works and whose operations all fault. *)
Definition locked_wiki : environment :=
  wiki_with (fun procedure _ =>
               if procedure =? "dokuwiki.getVersion"
               then Response (VStr "Release 2008-05-05")
               else FaultResponse 1 "No such page").

(** The front end with the client of [demo_wiki] in place. *)
Definition demo_cli_state : cli_state :=
  {| parser := {| values := {| user := Some "admin";
                               wiki := Some "http://wiki.example.org";
                               passwd := Some "secret"; timestamp := None |};
                  rargs := ["start"] |};
     dokuwiki := Some (built_client demo_wiki "http://wiki.example.org" "admin"
                         "secret" (VStr "Release 2008-05-05"));
     cli_world := initial_world |}.

(** The remote procedures that only read the wiki. *)
Definition reading_procedures : list string :=
  ["dokuwiki.getVersion"; "wiki.getPage"; "wiki.getPageVersion";
   "wiki.getPageHTML"; "wiki.getPageHTMLVersion"; "wiki.getPageInfo";
   "wiki.getPageVersions"; "wiki.getBackLinks"; "wiki.listLinks";
   "wiki.getAllPages"; "wiki.getRecentChanges"].

(** The user agent every client announces. *)
Definition the_user_agent : string := "DokuWikiXMLRPC 0.1by (www.chimeric.de)".

(** The world after [xmlrpclib]'s two class attributes were set and [evs]
    happened. *)
Definition announced (w : world) (evs : list event) : world :=
  {| trace := (trace w ++ evs)%list;
     Transport_user_agent := Some the_user_agent;
     SafeTransport_user_agent := Some the_user_agent |}.

(** * Properties *)

(** ** One guarded remote call *)

Section ClientFacts.

Variable E : environment.

Lemma guarded_call (procedure : string) (params : list value) (s : client_state) :
  try_except (xmlrpc_call E procedure params) except_Fault s =
  match _xmlrpc (self s) with
  | None => (Raise AttributeError, s)
  | Some proxy =>
      let o := transport E (trace (outside s)) (uri proxy) procedure params in
      (reply o, called s (uri proxy) procedure params o)
  end.
Proof.
  unfold try_except, xmlrpc_call, bind, get, log, modify, called.
  destruct (_xmlrpc (self s)) as [proxy|]; [|reflexivity].
  cbn. destruct (transport E _ _ _ _); reflexivity.
Qed.

Lemma put_page_call (page_id text summary minor : value) (s : client_state) :
  put_page E page_id text summary minor s =
  match _xmlrpc (self s) with
  | None => (Raise AttributeError, s)
  | Some proxy =>
      let params := [page_id; text; VDict [("sum", summary); ("minor", minor)]] in
      let o := transport E (trace (outside s)) (uri proxy) "wiki.putPage" params in
      (match o with Response _ => Ok VNone | _ => reply o end,
       called s (uri proxy) "wiki.putPage" params o)
  end.
Proof.
  unfold put_page, try_except, xmlrpc_call, bind, get, log, modify, called, ret.
  destruct (_xmlrpc (self s)) as [proxy|]; [|reflexivity].
  cbn. destruct (transport E _ _ _ _); reflexivity.
Qed.

Lemma guarded_call_step (procedure : string) (params : list value)
  (s : client_state) :
  method_step E s
    (fst (try_except (xmlrpc_call E procedure params) except_Fault s))
    (snd (try_except (xmlrpc_call E procedure params) except_Fault s)).
Proof.
  rewrite guarded_call.
  destruct (_xmlrpc (self s)) as [proxy|] eqn:Hp; cbn.
  - eapply step_call; eauto.
  - apply step_silent. auto.
Qed.

Lemma put_page_step (page_id text summary minor : value) (s : client_state) :
  method_step E s (fst (put_page E page_id text summary minor s))
                (snd (put_page E page_id text summary minor s)).
Proof.
  rewrite put_page_call.
  destruct (_xmlrpc (self s)) as [proxy|] eqn:Hp; cbn.
  - eapply step_call; eauto.
    destruct (transport E _ _ _ _) eqn:Ho; eauto.
  - apply step_silent. auto.
Qed.

Lemma call_method_step (m : method) (args : list value) (s : client_state) :
  method_step E s (fst (call_method E m args s)) (snd (call_method E m args s)).
Proof.
  destruct m;
    repeat (destruct args as [|? args];
            try (cbn; apply step_silent; auto; fail));
    cbn [call_method];
    unfold rpc_version_supported, page, page_versions, page_info, page_html,
      all_pages, backlinks, links, recent_changes, acl_check;
    try apply put_page_step;
    try (match goal with |- context [truthy ?r] => destruct (truthy r) end; cbn [negb]);
    try apply guarded_call_step;
    try (cbn; apply step_silent; auto).
Qed.

End ClientFacts.

(** ** Construction *)

Section ConstructionFacts.

Variable E : environment.

Lemma _xmlrpc_init_eq (s : client_state) :
  _xmlrpc_init E s =
  let r := urlopen E (trace (outside s)) (check_url (_url (self s))) in
  (match r with
   | Reached =>
       Ok (mkServerProxy (endpoint_of E (_url (self s)) (_user (self s))
                                      (_passwd (self s))))
   | UrlValueError | UrlHTTPError =>
       Raise (RaisedURLError (DokuWikiURLError_init (_url (self s))))
   | UrlFailure name => Raise (OtherException name)
   end, after_check s r).
Proof.
  unfold _xmlrpc_init, after_check, check_url, endpoint_of.
  unfold bind, get, try_except, do_urlopen, bind, get, log, modify, ret, raise.
  cbn.
  destruct (urlopen E (trace (outside s)) _); reflexivity.
Qed.

Lemma new_DokuWikiClient_inv (url user passwd : string) (w : world)
  (r : result DokuWikiClient) (w' : world) :
  new_DokuWikiClient E url user passwd w = (r, w') ->
  exists evs,
    trace w' = (trace w ++ evs)%list /\
    ((exists version,
         r = Ok (built_client E url user passwd version) /\
         evs = construction_events E url user passwd version) \/
     (exists e,
         r = Raise e /\ stdout_of evs = [] /\
         (forall faultCode faultString, e <> XmlrpcFault faultCode faultString) /\
         (rpcs_of evs = [] \/ rpcs_of evs = ["dokuwiki.getVersion"]))).
Proof.
  unfold new_DokuWikiClient, DokuWikiClient_init_body, _dokuwiki_version.
  unfold bind at 1. rewrite _xmlrpc_init_eq. cbv zeta.
  set (s0 := {| self := fresh_client url user passwd; outside := w |}).
  destruct (urlopen E (trace (outside s0)) (check_url (_url (self s0)))) eqn:H1;
    cbn [after_check].
  2,3,4: intros H; inversion H; subst; clear H; cbn;
    eexists; split; [reflexivity|]; right; eexists; repeat split;
    try discriminate; auto.
  unfold bind at 1. rewrite _xmlrpc_init_eq. cbv zeta. 
  match goal with |- context [urlopen E ?t ?u] => destruct (urlopen E t u) eqn:H2 end;
    cbn [after_check].
  2,3,4: intros H; inversion H; subst; clear H; cbn;
    eexists; split; [rewrite <- app_assoc; reflexivity|]; right; eexists; repeat split;
    try discriminate; auto.
  unfold bind at 1. unfold modify at 1. unfold bind at 1.
  unfold try_except at 1. rewrite guarded_call. cbn [self _xmlrpc]. cbv zeta.
  match goal with |- context [transport E ?t ?u ?p ?a] =>
    destruct (transport E t u p a) eqn:H3 end; cbn;
    intros H; inversion H; subst; clear H; cbn;
    (eexists; split; [rewrite <- !app_assoc; cbn; reflexivity|]).
  - left. eexists. split; reflexivity.
  - right. eexists. repeat split; try discriminate; auto.
  - right. eexists. repeat split; try discriminate; auto.
Qed.

End ConstructionFacts.

(** ** The client's claims *)

(** C1.  [put_page] does make its one remote call, but hands back [None]
    whatever [wiki.putPage] answered: the response does not reach the
    caller. *)
Theorem put_page_discards_response (E : environment)
  (page_id text summary minor : value) (s : client_state)
  (proxy : ServerProxy) (v : value) :
  _xmlrpc (self s) = Some proxy ->
  transport E (trace (outside s)) (uri proxy) "wiki.putPage"
    [page_id; text; VDict [("sum", summary); ("minor", minor)]] = Response v ->
  put_page E page_id text summary minor s =
  (Ok VNone,
   called s (uri proxy) "wiki.putPage"
     [page_id; text; VDict [("sum", summary); ("minor", minor)]] (Response v)).
Proof.
  intros Hproxy Hanswer.
  rewrite put_page_call, Hproxy. cbv zeta. rewrite Hanswer. reflexivity.
Qed.

Lemma put_page_discards_response_witness :
  put_page demo_wiki (VStr "start") (VStr "hello") (VStr "typo") (VBool true)
    demo_state =
  (Ok VNone,
   called demo_state "http://wiki.example.org/lib/exe/xmlrpc.php?u=admin&p=secret"
     "wiki.putPage"
     [VStr "start"; VStr "hello";
      VDict [("sum", VStr "typo"); ("minor", VBool true)]]
     (Response (VBool true))).
Proof.
  apply (put_page_discards_response demo_wiki (VStr "start") (VStr "hello")
           (VStr "typo") (VBool true) demo_state
           (mkServerProxy "http://wiki.example.org/lib/exe/xmlrpc.php?u=admin&p=secret")
           (VBool true)); vm_compute; reflexivity.
Defined.

Lemma passing_methods_return_the_response (E : environment) (m : method)
  (args : list value) (s : client_state) (r : result value) (s' : client_state)
  (evs : list event) (endpoint procedure : string) (params : list value)
  (v : value) :
  passes_response m = true ->
  call_method E m args s = (r, s') ->
  trace (outside s') = (trace (outside s) ++ evs)%list ->
  In (EvRpc endpoint procedure params (Response v)) evs ->
  r = Ok v.
Proof.
  intros Hm Hcall Htrace Hin.
  assert (Hstep : forall procedure' params',
             fst (try_except (xmlrpc_call E procedure' params') except_Fault s) = r ->
             snd (try_except (xmlrpc_call E procedure' params') except_Fault s) = s' ->
             r = Ok v).
  { intros p' a' Hr Hs. rewrite guarded_call in Hr, Hs.
    destruct (_xmlrpc (self s)) as [proxy|]; cbn in Hr, Hs; subst.
    - cbn in Htrace. apply app_inv_head in Htrace. subst evs.
      destruct Hin as [Heq|[]]. inversion Heq as [[H1 H2 H3 H4]].
      rewrite H4. reflexivity.
    - rewrite <- (app_nil_r (trace (outside s'))) in Htrace at 1.
      apply app_inv_head in Htrace. subst evs. destruct Hin. }
  assert (Hsilent : forall r0, (r0, s) = (r, s') -> r = Ok v).
  { intros r0 Heq. inversion Heq; subst.
    rewrite <- (app_nil_r (trace (outside s'))) in Htrace at 1.
    apply app_inv_head in Htrace. subst evs. destruct Hin. }
  destruct m; try discriminate Hm;
    repeat (destruct args as [|? args]; try (apply (Hsilent _ Hcall)));
    cbn [call_method] in Hcall;
    unfold rpc_version_supported, page, page_versions, page_info, page_html,
      all_pages, backlinks, links, recent_changes, acl_check in Hcall;
    try (match type of Hcall with context [truthy ?x] =>
           destruct (truthy x) end; cbn [negb] in Hcall);
    eapply Hstep; rewrite Hcall; reflexivity.
Qed.

(** What a method step adds to the trace. *)
Lemma method_step_events (E : environment) (s : client_state)
  (r : result value) (s' : client_state) (evs : list event) :
  method_step E s r s' ->
  trace (outside s') = (trace (outside s) ++ evs)%list ->
  (evs = [] /\ (r = Ok VNone \/ r = Raise TypeError \/ r = Raise AttributeError)) \/
  (exists endpoint procedure params o,
      evs = [EvRpc endpoint procedure params o] /\
      (r = reply o \/ (exists v, o = Response v /\ r = Ok VNone))).
Proof.
  intros Hstep Htrace. destruct Hstep as [r Hr | proxy procedure params o r Hp Ho Hr].
  - left. split; [|exact Hr].
    rewrite <- (app_nil_r (trace (outside s))) in Htrace at 1.
    apply app_inv_head in Htrace. auto.
  - right. cbn in Htrace. apply app_inv_head in Htrace.
    exists (uri proxy), procedure, params, o. auto.
Qed.

Lemma call_method_events (E : environment) (m : method) (args : list value)
  (s : client_state) (r : result value) (s' : client_state) :
  call_method E m args s = (r, s') ->
  self s' = self s /\
  exists evs, trace (outside s') = (trace (outside s) ++ evs)%list.
Proof.
  intros Hcall. pose proof (call_method_step E m args s) as Hstep.
  rewrite Hcall in Hstep. cbn in Hstep.
  destruct Hstep.
  - split; [reflexivity|]. exists []. now rewrite app_nil_r.
  - split; [reflexivity|]. eexists. reflexivity.
Qed.

(** C2.  Whenever the remote interface answers a call of a public method with
    a fault, the method raises [DokuWikiXMLRPCError] whose [page_id] is the
    fault's code and whose [message] is the fault's string; and no public
    method ever lets an [xmlrpclib.Fault] itself out. *)
Theorem remote_fault_surfaces_as_typed_error (E : environment) (m : method)
  (args : list value) (s : client_state) (r : result value) (s' : client_state)
  (evs : list event) :
  call_method E m args s = (r, s') ->
  trace (outside s') = (trace (outside s) ++ evs)%list ->
  (forall faultCode faultString, r <> Raise (XmlrpcFault faultCode faultString)) /\
  (forall endpoint procedure params faultCode faultString,
      In (EvRpc endpoint procedure params (FaultResponse faultCode faultString)) evs ->
      exists err,
        r = Raise (RaisedXMLRPCError err) /\
        err = DokuWikiXMLRPCError_init (ObjFault faultCode faultString) /\
        page_id err = faultCode /\
        message err = ObjValue (VStr faultString)).
Proof.
  intros Hcall Htrace.
  pose proof (call_method_step E m args s) as Hstep.
  rewrite Hcall in Hstep. cbn in Hstep.
  destruct (method_step_events E s r s' evs Hstep Htrace)
    as [[Hevs Hr] | (endpoint & procedure & params & o & Hevs & Hr)]; subst evs.
  - split.
    + intros c msg. destruct Hr as [-> | [-> | ->]]; discriminate.
    + intros ? ? ? ? ? [].
  - split.
    + intros c msg. destruct Hr as [-> | (v & _ & ->)]; [|discriminate].
      destruct o; discriminate.
    + intros endpoint' procedure' params' c msg [Heq | []].
      inversion Heq; subst.
      destruct Hr as [-> | (v & Hv & _)]; [|discriminate].
      eexists. repeat split.
Qed.

Lemma remote_fault_surfaces_as_typed_error_witness :
  exists err,
    fst (call_method demo_wiki Macl_check [VStr "nowhere"] demo_state) =
      Raise (RaisedXMLRPCError err) /\
    err = DokuWikiXMLRPCError_init (ObjFault 1 "No such page") /\
    page_id err = 1%Z /\
    message err = ObjValue (VStr "No such page").
Proof.
  destruct (remote_fault_surfaces_as_typed_error demo_wiki Macl_check
              [VStr "nowhere"] demo_state
              (fst (call_method demo_wiki Macl_check [VStr "nowhere"] demo_state))
              (snd (call_method demo_wiki Macl_check [VStr "nowhere"] demo_state))
              [EvRpc "http://wiki.example.org/lib/exe/xmlrpc.php?u=admin&p=secret"
                 "wiki.aclCheck" [VStr "nowhere"]
                 (FaultResponse 1 "No such page")]
              (surjective_pairing _)) as [_ Hfault].
  - vm_compute. reflexivity.
  - apply (Hfault "http://wiki.example.org/lib/exe/xmlrpc.php?u=admin&p=secret"
             "wiki.aclCheck" [VStr "nowhere"] 1%Z "No such page").
    left. reflexivity.
Defined.

(** The constructor, too, turns a fault of its handshake into the typed
    error. *)
Lemma construction_lets_no_fault_out (E : environment) (url user passwd : string)
  (w w' : world) (e : exn) :
  new_DokuWikiClient E url user passwd w = (Raise e, w') ->
  forall faultCode faultString, e <> XmlrpcFault faultCode faultString.
Proof.
  intros Hnew. apply new_DokuWikiClient_inv in Hnew.
  destruct Hnew as (evs & _ & [(v & Hv & _) | (e' & He & _ & Hne & _)]).
  - discriminate.
  - inversion He; subst. exact Hne.
Qed.

(** C3.  A successful construction opens the endpoint URL twice (once for
    each of the two calls of [_xmlrpc_init] in [__init__]) and calls
    [dokuwiki.getVersion] once, and makes no other remote call. *)
Theorem construction_checks_reachability_twice (E : environment)
  (url user passwd : string) (w : world) (c : DokuWikiClient) (w' : world) :
  new_DokuWikiClient E url user passwd w = (Ok c, w') ->
  exists evs,
    trace w' = (trace w ++ evs)%list /\
    count is_urlopen evs = 2 /\
    count (is_rpc_of "dokuwiki.getVersion") evs = 1 /\
    count is_rpc evs = 1.
Proof.
  intros Hnew. apply new_DokuWikiClient_inv in Hnew.
  destruct Hnew as (evs & Htrace & [(v & _ & Hevs) | (e & He & _)]).
  - exists evs. subst evs. repeat split; auto.
  - discriminate.
Qed.

Lemma construction_checks_reachability_twice_witness :
  exists evs,
    trace (snd (new_DokuWikiClient demo_wiki "http://wiki.example.org" "admin"
                  "secret" initial_world)) = (trace initial_world ++ evs)%list /\
    count is_urlopen evs = 2 /\
    count (is_rpc_of "dokuwiki.getVersion") evs = 1 /\
    count is_rpc evs = 1.
Proof.
  apply (construction_checks_reachability_twice demo_wiki
           "http://wiki.example.org" "admin" "secret" initial_world demo_client
           (snd (new_DokuWikiClient demo_wiki "http://wiki.example.org" "admin"
                   "secret" initial_world))).
  vm_compute. reflexivity.
Defined.

(** C5.  [put_file] and [list_files] return [None] and leave the client and
    the world as they were, whatever they are given. *)
Theorem file_operations_are_stubs (E : environment)
  (namespace filename name overwrite : value) (s : client_state) :
  put_file namespace filename name overwrite s = (Ok VNone, s) /\
  list_files namespace s = (Ok VNone, s) /\
  call_method E Mput_file [namespace; filename] s = (Ok VNone, s) /\
  call_method E Mput_file [namespace; filename; name] s = (Ok VNone, s) /\
  call_method E Mput_file [namespace; filename; name; overwrite] s = (Ok VNone, s) /\
  call_method E Mlist_files [namespace] s = (Ok VNone, s).
Proof.
  repeat split.
Qed.

(** C7.  After a successful construction and any sequence of calls of public
    methods, returning or raising, the client still holds the URL, user and
    password the constructor was given. *)
Theorem connection_parameters_are_fixed (E : environment)
  (url user passwd : string) (w : world) (c : DokuWikiClient) (w' : world)
  (calls : list (method * list value)) :
  new_DokuWikiClient E url user passwd w = (Ok c, w') ->
  _url c = url /\ _user c = user /\ _passwd c = passwd /\
  forall w'', self (after_calls E calls {| self := c; outside := w'' |}) = c.
Proof.
  intros Hnew. apply new_DokuWikiClient_inv in Hnew.
  destruct Hnew as (evs & _ & [(v & Hc & _) | (e & He & _)]); [|discriminate].
  inversion Hc; subst c. repeat split.
  unfold after_calls.
  induction calls as [|[m args] calls IH]; intros w''; [reflexivity|].
  cbn [fold_left fst snd].
  destruct (call_method E m args _) as [r s'] eqn:Hcall.
  destruct (call_method_events E m args _ r s' Hcall) as [Hself _].
  cbn [snd]. destruct s' as [c' wc]. cbn in Hself. subst c'. apply IH.
Qed.

Lemma connection_parameters_are_fixed_witness :
  _url demo_client = "http://wiki.example.org" /\
  _user demo_client = "admin" /\
  _passwd demo_client = "secret" /\
  forall w'',
    self (after_calls demo_wiki
            [(Mpage, [VStr "start"]); (Macl_check, [VStr "nowhere"]);
             (Mput_page, [VStr "start"; VStr "hello"])]
            {| self := demo_client; outside := w'' |}) = demo_client.
Proof.
  apply (connection_parameters_are_fixed demo_wiki "http://wiki.example.org"
           "admin" "secret" initial_world demo_client
           (snd (new_DokuWikiClient demo_wiki "http://wiki.example.org" "admin"
                   "secret" initial_world))).
  vm_compute. reflexivity.
Defined.

(** C10 as the code has it.  Built from anything but a fault, the error has
    code 0 and the object itself as its message; it is the error of a remote
    fault exactly when that fault has code 0 and the object is the fault's
    message string.  So the code 0 sets a local error apart from every fault
    with another code, and from no fault with code 0 and the same
    message. *)
Theorem error_from_non_fault (obj : pyobj) :
  is_fault obj = false ->
  page_id (DokuWikiXMLRPCError_init obj) = 0%Z /\
  message (DokuWikiXMLRPCError_init obj) = obj /\
  forall faultCode faultString,
    DokuWikiXMLRPCError_init (ObjFault faultCode faultString) =
      DokuWikiXMLRPCError_init obj <->
    faultCode = 0%Z /\ obj = ObjValue (VStr faultString).
Proof.
  destruct obj as [c s | v]; [discriminate|]. intros _.
  split; [reflexivity|]. split; [reflexivity|].
  intros faultCode faultString. cbn. split.
  - intros H. inversion H. auto.
  - intros [-> H]. inversion H. reflexivity.
Qed.

Lemma error_from_non_fault_witness :
  page_id (DokuWikiXMLRPCError_init (ObjValue (VStr "no route to host"))) = 0%Z /\
  message (DokuWikiXMLRPCError_init (ObjValue (VStr "no route to host"))) =
    ObjValue (VStr "no route to host") /\
  forall faultCode faultString,
    DokuWikiXMLRPCError_init (ObjFault faultCode faultString) =
      DokuWikiXMLRPCError_init (ObjValue (VStr "no route to host")) <->
    faultCode = 0%Z /\
    ObjValue (VStr "no route to host") = ObjValue (VStr faultString).
Proof.
  apply (error_from_non_fault (ObjValue (VStr "no route to host"))).
  reflexivity.
Defined.

(** C10 as stated fails at fault code 0: the remote fault with code 0 and
    message [boom] and the local string [boom] give one and the same error,
    so the code 0 does not tell the local error from the remote fault. *)
Lemma fault_with_code_zero_looks_local :
  is_fault (ObjFault 0 "boom") = true /\
  is_fault (ObjValue (VStr "boom")) = false /\
  page_id (DokuWikiXMLRPCError_init (ObjFault 0 "boom")) = 0%Z /\
  DokuWikiXMLRPCError_init (ObjFault 0 "boom") =
    DokuWikiXMLRPCError_init (ObjValue (VStr "boom")).
Proof.
  repeat split.
Qed.

(** What the code does where C8 speaks.  A call of a public method attempts
    at most one remote procedure, and nothing is attempted again after a
    fault or a failure.  A fault on the attempt is raised as
    [DokuWikiXMLRPCError]; any other failure of the attempt leaves the method
    as the exception it is. *)
Theorem no_second_attempt (E : environment) (m : method) (args : list value)
  (s : client_state) (r : result value) (s' : client_state) (evs : list event) :
  call_method E m args s = (r, s') ->
  trace (outside s') = (trace (outside s) ++ evs)%list ->
  count is_rpc evs <= 1 /\
  (forall endpoint procedure params faultCode faultString,
      In (EvRpc endpoint procedure params (FaultResponse faultCode faultString)) evs ->
      evs = [EvRpc endpoint procedure params (FaultResponse faultCode faultString)] /\
      r = Raise (RaisedXMLRPCError
                   (DokuWikiXMLRPCError_init (ObjFault faultCode faultString)))) /\
  (forall endpoint procedure params name,
      In (EvRpc endpoint procedure params (CallFailure name)) evs ->
      evs = [EvRpc endpoint procedure params (CallFailure name)] /\
      r = Raise (OtherException name)).
Proof.
  intros Hcall Htrace.
  pose proof (call_method_step E m args s) as Hstep.
  rewrite Hcall in Hstep. cbn in Hstep.
  destruct (method_step_events E s r s' evs Hstep Htrace)
    as [[Hevs Hr] | (endpoint & procedure & params & o & Hevs & Hr)]; subst evs.
  - repeat split; cbn; try lia; intros; contradiction.
  - split; [cbn; lia|]. split.
    + intros endpoint' procedure' params' c msg [Heq | []].
      inversion Heq; subst. split; [reflexivity|].
      destruct Hr as [-> | (v & Hv & _)]; [reflexivity|discriminate].
    + intros endpoint' procedure' params' name [Heq | []].
      inversion Heq; subst. split; [reflexivity|].
      destruct Hr as [-> | (v & Hv & _)]; [reflexivity|discriminate].
Qed.

Lemma no_second_attempt_witness :
  count is_rpc
    [EvRpc "http://wiki.example.org/lib/exe/xmlrpc.php?u=admin&p=secret"
       "wiki.getPage" [VStr "start"] (CallFailure "socket.error")] <= 1 /\
  fst (call_method unplugged_wiki Mpage [VStr "start"] demo_state) =
    Raise (OtherException "socket.error").
Proof.
  destruct (no_second_attempt unplugged_wiki Mpage [VStr "start"] demo_state
              (fst (call_method unplugged_wiki Mpage [VStr "start"] demo_state))
              (snd (call_method unplugged_wiki Mpage [VStr "start"] demo_state))
              [EvRpc "http://wiki.example.org/lib/exe/xmlrpc.php?u=admin&p=secret"
                 "wiki.getPage" [VStr "start"] (CallFailure "socket.error")]
              (surjective_pairing _)) as (Hcount & _ & Hfail);
    [vm_compute; reflexivity|].
  split; [exact Hcount|].
  apply (Hfail "http://wiki.example.org/lib/exe/xmlrpc.php?u=admin&p=secret"
           "wiki.getPage" [VStr "start"] "socket.error").
  left. reflexivity.
Defined.

(** C8.  The code where the network fails: the one attempt of [wiki.getPage]
    ends in [socket.error], and what [page] raises is that exception itself,
    which is none of the module's error classes, where the claim and the
    docstring of the class ("If something goes wrong a method raises a
    DokuWikiXMLRPCError") have the typed error.  The attempt is not
    repeated. *)
Lemma network_failure_is_not_wrapped :
  call_method unplugged_wiki Mpage [VStr "start"] demo_state =
    (Raise (OtherException "socket.error"),
     called demo_state
       "http://wiki.example.org/lib/exe/xmlrpc.php?u=admin&p=secret"
       "wiki.getPage" [VStr "start"] (CallFailure "socket.error")) /\
  is_DokuWikiError (OtherException "socket.error") = false /\
  ~ (exists err,
        fst (call_method unplugged_wiki Mpage [VStr "start"] demo_state) =
        Raise (RaisedXMLRPCError err)).
Proof.
  split; [vm_compute; reflexivity|]. split; [reflexivity|].
  intros [err Herr]. vm_compute in Herr. discriminate Herr.
Qed.

(** ** Printing *)

Lemma emit_nil (s : cli_state) : emit [] s = s.
Proof.
  destruct s as [p d [t a b]]. unfold emit. cbn. now rewrite app_nil_r.
Qed.

Lemma emit_app (o1 o2 : list output) (s : cli_state) :
  emit o2 (emit o1 s) = emit (o1 ++ o2)%list s.
Proof.
  unfold emit. cbn. now rewrite map_app, app_assoc.
Qed.

Lemma stdout_of_app (e1 e2 : list event) :
  stdout_of (e1 ++ e2)%list = (stdout_of e1 ++ stdout_of e2)%list.
Proof. apply flat_map_app. Qed.

Lemma stdout_of_map (outs : list output) : stdout_of (map EvStdout outs) = outs.
Proof.
  induction outs as [|o outs IH]; [reflexivity|]. cbn. f_equal. exact IH.
Qed.

Lemma rpcs_of_app (e1 e2 : list event) :
  rpcs_of (e1 ++ e2)%list = (rpcs_of e1 ++ rpcs_of e2)%list.
Proof. apply flat_map_app. Qed.

Lemma rpcs_of_map (outs : list output) : rpcs_of (map EvStdout outs) = [].
Proof.
  induction outs as [|o outs IH]; [reflexivity|]. exact IH.
Qed.

Lemma rpcs_of_In (endpoint procedure : string) (params : list value) (o : outcome)
  (evs : list event) :
  In (EvRpc endpoint procedure params o) evs -> In procedure (rpcs_of evs).
Proof.
  induction evs as [|ev evs IH]; [tauto|].
  intros [-> | Hin]; cbn.
  - now left.
  - apply in_or_app. right. auto.
Qed.

Lemma prints_ret : prints (ret tt) (Ok tt) [].
Proof. intros s. now rewrite emit_nil. Qed.

Lemma prints_raise (e : exn) : prints (raise e) (Raise e) [].
Proof. intros s. now rewrite emit_nil. Qed.

Lemma prints_say (o : output) : prints (say o) (Ok tt) [o].
Proof. intros s. reflexivity. Qed.

Lemma prints_then (m k : M cli_state unit) (r : result unit) (o1 o2 : list output) :
  prints m (Ok tt) o1 -> prints k r o2 -> prints (m ;;; k) r (o1 ++ o2)%list.
Proof.
  intros Hm Hk s. unfold bind. rewrite Hm, Hk. now rewrite emit_app.
Qed.

Lemma prints_stop (m k : M cli_state unit) (e : exn) (o1 : list output) :
  prints m (Raise e) o1 -> prints (m ;;; k) (Raise e) o1.
Proof.
  intros Hm s. unfold bind. now rewrite Hm.
Qed.

Lemma print_items_prints (items : list value) :
  prints (print_items items) (Ok tt) (map PrintValue items).
Proof.
  induction items as [|item items IH]; cbn [print_items map].
  - apply prints_ret.
  - apply (prints_then _ _ _ [PrintValue item]); [apply prints_say | exact IH].
Qed.

Lemma print_keys_some (members : list (string * value)) (keys : list string) :
  exists r outs, prints (print_keys members keys) r outs.
Proof.
  induction keys as [|key keys (r & outs & IH)]; cbn [print_keys].
  - do 2 eexists. apply prints_ret.
  - destruct (getitem members key) as [v|].
    + do 2 eexists. eapply prints_then; [apply prints_say | exact IH].
    + do 2 eexists. apply prints_raise.
Qed.

Lemma print_mapping_some (d : value) :
  exists r outs, prints (print_mapping d) r outs.
Proof.
  destruct d; cbn [print_mapping];
    try (do 2 eexists; apply prints_raise).
  apply print_keys_some.
Qed.

Lemma print_mappings_some (items : list value) :
  exists r outs, prints (print_mappings items) r outs.
Proof.
  induction items as [|item items (r & outs & IH)]; cbn [print_mappings].
  - do 2 eexists. apply prints_ret.
  - destruct (print_mapping_some item) as ([[]|e] & o1 & H1).
    + do 2 eexists. eapply prints_then; [exact H1|].
      eapply prints_then; [apply prints_say | exact IH].
    + do 2 eexists. apply prints_stop. exact H1.
Qed.

Lemma print_formatted_some (data : value) (format : string) :
  exists r outs, prints (print_formatted data format) r outs.
Proof.
  unfold print_formatted.
  destruct (format =? "plain"); [do 2 eexists; apply prints_say|].
  destruct (format =? "list").
  { destruct data; cbn [iterate];
      try (exists (Raise TypeError), []; intros st; unfold bind, raise;
           now rewrite emit_nil);
      do 2 eexists; intros st; unfold bind, ret;
      apply print_items_prints. }
  destruct (format =? "dict"); [|do 2 eexists; apply prints_ret].
  destruct data; try apply print_mapping_some. apply print_mappings_some.
Qed.

Lemma printed_of_prints (data : value) (format : string) (r : result unit)
  (outs : list output) :
  prints (print_formatted data format) r outs -> printed data format = (r, outs).
Proof.
  intros H. unfold printed. rewrite H. unfold emit, initial_world.
  cbn [cli_world trace app]. now rewrite stdout_of_map.
Qed.

(** The formatting step only prints: on any state it ends as [printed] says
    and adds to the trace what [printed] says, nothing else. *)
Lemma print_formatted_frame (data : value) (format : string) (s : cli_state) :
  print_formatted data format s =
  (fst (printed data format), emit (snd (printed data format)) s).
Proof.
  destruct (print_formatted_some data format) as (r & outs & H).
  rewrite (printed_of_prints data format r outs H). apply H.
Qed.

Lemma getitem_member (members : list (string * value)) (kv : string * value) :
  NoDup (map fst members) -> In kv members ->
  getitem members (fst kv) = Some (snd kv).
Proof.
  induction members as [|[k v] members IH]; [intros _ []|].
  cbn [map fst getitem]. intros Hnd Hin. inversion Hnd as [|? ? Hnotin Hnd']; subst.
  destruct Hin as [<- | Hin].
  - cbn. now rewrite String.eqb_refl.
  - destruct (String.eqb_spec k (fst kv)) as [->|Hne].
    + exfalso. apply Hnotin. apply in_map. exact Hin.
    + apply IH; assumption.
Qed.

Lemma print_keys_prints (members rest : list (string * value)) :
  (forall kv, In kv rest -> getitem members (fst kv) = Some (snd kv)) ->
  prints (print_keys members (map fst rest)) (Ok tt) (map member_line rest).
Proof.
  induction rest as [|kv rest IH]; intros Hget; cbn [map print_keys].
  - apply prints_ret.
  - rewrite (Hget kv (or_introl eq_refl)).
    apply (prints_then _ _ _ [member_line kv]); [apply prints_say|].
    apply IH. intros kv' Hin. apply Hget. now right.
Qed.

Lemma print_mapping_prints (members : list (string * value)) :
  NoDup (map fst members) ->
  prints (print_mapping (VDict members)) (Ok tt) (map member_line members).
Proof.
  intros Hnd. cbn [print_mapping]. apply print_keys_prints.
  intros kv Hin. now apply getitem_member.
Qed.

Lemma print_mappings_prints (ds : list (list (string * value))) :
  Forall (fun members => NoDup (map fst members)) ds ->
  prints (print_mappings (map VDict ds)) (Ok tt) (flat_map mapping_block ds).
Proof.
  induction 1 as [|members ds Hnd _ IH]; cbn [map print_mappings flat_map].
  - apply prints_ret.
  - unfold mapping_block at 1. rewrite <- app_assoc.
    apply prints_then; [now apply print_mapping_prints|].
    apply (prints_then _ _ _ [PrintText newline]); [apply prints_say | exact IH].
Qed.

Lemma printed_plain (data : value) :
  printed data "plain" = (Ok tt, [PrintValue data]).
Proof. apply printed_of_prints. intros s. reflexivity. Qed.

Lemma printed_list (items : list value) :
  printed (VList items) "list" = (Ok tt, map PrintValue items).
Proof.
  apply printed_of_prints. intros s.
  unfold print_formatted. cbn [String.eqb Ascii.eqb Bool.eqb iterate].
  unfold bind, ret. apply print_items_prints.
Qed.

Lemma printed_dict (members : list (string * value)) :
  NoDup (map fst members) ->
  printed (VDict members) "dict" = (Ok tt, map member_line members).
Proof.
  intros Hnd. apply printed_of_prints. intros s.
  unfold print_formatted. cbn [String.eqb Ascii.eqb Bool.eqb].
  now apply print_mapping_prints.
Qed.

Lemma printed_dicts (ds : list (list (string * value))) :
  Forall (fun members => NoDup (map fst members)) ds ->
  printed (VList (map VDict ds)) "dict" = (Ok tt, flat_map mapping_block ds).
Proof.
  intros Hnd. apply printed_of_prints. intros s.
  unfold print_formatted. cbn [String.eqb Ascii.eqb Bool.eqb].
  now apply print_mappings_prints.
Qed.

(** ** One run of the front end *)

Section RunFacts.

Variable E : environment.

Lemma on_client_guarded (procedure : string) (params : list value)
  (s : cli_state) (c : DokuWikiClient) (proxy : ServerProxy) :
  dokuwiki s = Some c -> _xmlrpc c = Some proxy ->
  on_client (try_except (xmlrpc_call E procedure params) except_Fault) s =
  let o := transport E (trace (cli_world s)) (uri proxy) procedure params in
  (reply o,
   {| parser := parser s; dokuwiki := Some c;
      cli_world := log_event (EvRpc (uri proxy) procedure params o) (cli_world s) |}).
Proof.
  intros Hc Hp. unfold on_client. rewrite Hc, guarded_call. cbn [self outside].
  rewrite Hp. reflexivity.
Qed.

Lemma dispatch_inv (f : flag) (s : cli_state) (c : DokuWikiClient)
  (proxy : ServerProxy) (r : result (option (value * string))) (s' : cli_state) :
  dokuwiki s = Some c -> _xmlrpc c = Some proxy ->
  dispatch E (dest f) s = (r, s') ->
  (needs_page f = true /\ page_argument (parser s) = None /\
   r = Raise (SystemExit 2) /\
   trace (cli_world s') = (trace (cli_world s) ++ [no_page_given])%list) \/
  (exists page o,
      (needs_page f = false \/ page_argument (parser s) = Some page) /\
      o = transport E (trace (cli_world s)) (uri proxy)
            (fst (request_of E f (timestamp_value (timestamp (values (parser s))))
                    (VStr page)))
            (snd (request_of E f (timestamp_value (timestamp (values (parser s))))
                    (VStr page))) /\
      trace (cli_world s') =
        (trace (cli_world s) ++
         [EvRpc (uri proxy)
            (fst (request_of E f (timestamp_value (timestamp (values (parser s))))
                    (VStr page)))
            (snd (request_of E f (timestamp_value (timestamp (values (parser s))))
                    (VStr page))) o])%list /\
      r = match reply o with
          | Ok data => Ok (Some (data, format_of f))
          | Raise e => Raise e
          end).
Proof.
  intros Hc Hp.
  destruct s as [[[u wk pw t] ra] dw w]. cbn in Hc. subst dw.
  destruct c as [cu cus cp cua cx cv]. cbn in Hp. subst cx.
  unfold page_argument. cbn [parser rargs values timestamp cli_world].
  destruct (rev ra) as [|last front] eqn:Hrev;
  destruct f; destruct t as [z|];
    unfold dispatch, _get_page_id, rargs_pop, get_timestamp, set_timestamp,
      dokuwiki_getattribute, call_attribute, on_client, parser_error, cli_log;
    cbn [dest String.eqb Ascii.eqb Bool.eqb orb];
    unfold bind, get, try_except, modify, ret, raise;
    cbn [dokuwiki getattribute find public_methods method_name String.eqb
         Ascii.eqb Bool.eqb parser rargs values timestamp cli_world
         timestamp_value truthy negb call_method];
    try rewrite Hrev;
    cbn [parser rargs values timestamp cli_world timestamp_value truthy negb
         dokuwiki];
    try (destruct (z =? 0)%Z eqn:Hz; cbn [negb]);
    cbn [parser rargs values timestamp cli_world timestamp_value truthy negb
         dokuwiki call_method];
    try rewrite Hz; cbn [negb];
    unfold page, page_html, page_info, page_versions, backlinks, links,
      all_pages, recent_changes;
    cbn [truthy negb]; try rewrite Hz; cbn [negb];
    try rewrite guarded_call; cbn [self outside _xmlrpc];
    cbv zeta;
    cbn [cli_world trace log_event outside called request_of truthy fst snd
         format_of needs_page];
    try rewrite Hz; cbn [negb fst snd];
    try (intros H; inversion H; subst; clear H; left; repeat split; reflexivity);
    match goal with |- context [transport E ?a ?b ?c ?d] =>
      destruct (transport E a b c d) eqn:Ho end;
    cbn [reply];
    intros H; inversion H; subst; clear H;
    right;
    first [ exists last | exists ""%string ];
    eexists; (split; [first [left; reflexivity | right; reflexivity]|]);
    cbn [cli_world trace log_event outside called request_of truthy fst snd
         format_of needs_page];
    try rewrite Hz; cbn [negb fst snd];
    try rewrite Ho;
    (split; [reflexivity|]); (split; [reflexivity|]); reflexivity.
Qed.

Lemma run_inv (f : flag) (p : OptionParser) (r : result unit) (s : cli_state) :
  run E f p = (r, s) -> run_outcome E f p r (trace (cli_world s)).
Proof.
  unfold run, Callback_init. unfold bind at 1. unfold get at 1.
  cbn [initial_cli_state parser].
  destruct (credentials_given p) eqn:Hcred.
  2:{ assert (Husage : forall s0, print_usage s0 = (r, s) ->
                 trace (cli_world s0) = [] ->
                 run_outcome E f p r (trace (cli_world s))).
      { intros s0 H H0. inversion H; subst. cbn. rewrite H0.
        now apply run_usage. }
      unfold credentials_given in Hcred.
      destruct (user (values p)), (wiki (values p)), (passwd (values p));
        try (intros H; eapply Husage; [exact H | reflexivity]).
      rewrite Hcred. intros H; eapply Husage; [exact H | reflexivity]. }
  pose proof Hcred as Hcred'. unfold credentials_given in Hcred.
  destruct (user (values p)) as [u|] eqn:Hu; [|discriminate].
  destruct (wiki (values p)) as [wk|] eqn:Hwk; [|discriminate].
  destruct (passwd (values p)) as [pw|] eqn:Hpw; [|discriminate].
  rewrite Hcred.
  unfold bind at 1. unfold try_except at 1. unfold assign_dokuwiki at 1.
  cbn [initial_cli_state cli_world parser dokuwiki].
  destruct (new_DokuWikiClient E wk u pw initial_world) as [rc w1] eqn:Hnew.
  apply new_DokuWikiClient_inv in Hnew. cbn [initial_world trace app] in Hnew.
  destruct Hnew as (evs & Htrace & [(version & -> & Hevs) | (e & -> & Hout & Hne & Hrpcs)]).
  - (* the client was built *)
    rewrite Hevs in Htrace. clear evs Hevs. unfold bind at 1.
    destruct (dispatch E (dest f) _) as [rd sd] eqn:Hd.
    eapply dispatch_inv in Hd; [|reflexivity|reflexivity].
    cbn [parser cli_world uri] in Hd. rewrite Htrace in Hd.
    destruct Hd as [(Hneeds & Hpage & -> & Hsd) | (page & o & Hpage & Ho & Hsd & ->)].
    + intros H. inversion H; subst. rewrite Hsd.
      now apply (run_no_page E f p u wk pw version).
    + pose proof (run_operation E f p u wk pw version page o Hcred' Hu Hwk Hpw Hpage Ho)
        as Hrun.
      destruct o as [data | faultCode faultString | name]; cbn [reply ending] in *.
      * destruct (truthy data).
        -- rewrite print_formatted_frame. intros H. inversion H; subst.
           cbn [emit cli_world trace]. rewrite Hsd, <- app_assoc. exact Hrun.
        -- intros H. inversion H; subst. rewrite Hsd. exact Hrun.
      * intros H. inversion H; subst. rewrite Hsd. exact Hrun.
      * intros H. inversion H; subst. rewrite Hsd. exact Hrun.
  - (* the constructor raised *)
    subst evs.
    assert (Hexit : forall s2,
               parser_error (MsgError e)
                 {| parser := p; dokuwiki := None; cli_world := w1 |} = (r, s2) ->
               run_outcome E f p r (trace (cli_world s2))).
    { intros s2 H. inversion H; subst. cbn.
      apply run_no_client; [exact Hcred'| |].
      - now rewrite stdout_of_app, Hout.
      - rewrite rpcs_of_app. cbn. now rewrite app_nil_r. }
    assert (Hpass : forall s2,
               (Raise e, {| parser := p; dokuwiki := None; cli_world := w1 |}) = (r, s2) ->
               run_outcome E f p r (trace (cli_world s2))).
    { intros s2 H2. inversion H2; subst. cbn.
      now apply run_no_client. }
    destruct e; first [exact (Hpass s) | exact (Hexit s)].
Qed.

End RunFacts.

(** ** The front end's claims *)

Lemma request_is_no_handshake (E : environment) (f : flag) (t page : value) :
  fst (request_of E f t page) <> "dokuwiki.getVersion".
Proof.
  destruct f; cbn; try destruct (truthy t); cbn; discriminate.
Qed.

Lemma no_rpc_among_prints (endpoint procedure : string) (params : list value)
  (o : outcome) (outs : list output) :
  ~ In (EvRpc endpoint procedure params o) (map EvStdout outs).
Proof.
  induction outs as [|x outs IH]; [tauto|].
  intros [H | H]; [discriminate | auto].
Qed.

Lemma stdout_of_construction (E : environment) (url user passwd : string)
  (version : value) :
  stdout_of (construction_events E url user passwd version) = [].
Proof. reflexivity. Qed.

(** What a run prints, and how it ends, once an operation other than the
    handshake answered [data]. *)
Lemma run_prints (E : environment) (f : flag) (p : OptionParser)
  (r : result unit) (s : cli_state) (endpoint procedure : string)
  (params : list value) (data : value) :
  run E f p = (r, s) ->
  In (EvRpc endpoint procedure params (Response data)) (trace (cli_world s)) ->
  procedure <> "dokuwiki.getVersion" ->
  (r, stdout_of (trace (cli_world s))) =
  if truthy data then printed data (format_of f) else (Ok tt, []).
Proof.
  intros Hrun Hin Hproc. apply run_inv in Hrun.
  destruct Hrun as [Hcred | e evs Hcred Hout Hrpcs
                   | u wk pw version Hcred Hu Hwk Hpw Hneeds Hpage
                   | u wk pw version page o Hcred Hu Hwk Hpw Hpage Ho].
  - destruct Hin as [H | []]. discriminate.
  - apply rpcs_of_In in Hin. destruct Hrpcs as [Hr | Hr]; rewrite Hr in Hin.
    + destruct Hin.
    + destruct Hin as [H | []]. congruence.
  - apply rpcs_of_In in Hin. cbn in Hin.
    destruct Hin as [H | []]. congruence.
  - apply in_app_or in Hin. destruct Hin as [Hin | Hin].
    { apply rpcs_of_In in Hin. cbn in Hin. destruct Hin as [H | []]. congruence. }
    apply in_app_or in Hin. destruct Hin as [[Heq | []] | Hin].
    2:{ exfalso. eapply no_rpc_among_prints. exact Hin. }
    clear Ho. inversion Heq; subst; clear Heq.
    rewrite !stdout_of_app, stdout_of_construction, stdout_of_map.
    cbn [stdout_of flat_map app ending].
    destruct (truthy data); [|reflexivity].
    now destruct (printed data (format_of f)).
Qed.




(** C6 as the code has it.  The selected flag fixes the format, and a
    non-empty result is printed in that format: under ['plain'] as it is;
    under ['list'], a list one item per print; under ['dict'], a mapping as
    one [key: value] line per member, and a list of mappings as every
    mapping's lines, each mapping followed by the text of [print "\n"]. *)
Theorem result_is_printed_in_the_format_of_the_flag (E : environment) (f : flag)
  (p : OptionParser) (r : result unit) (s : cli_state)
  (endpoint procedure : string) (params : list value) (data : value) :
  run E f p = (r, s) ->
  In (EvRpc endpoint procedure params (Response data)) (trace (cli_world s)) ->
  procedure <> "dokuwiki.getVersion" ->
  truthy data = true ->
  (format_of f = "plain" ->
   r = Ok tt /\ stdout_of (trace (cli_world s)) = [PrintValue data]) /\
  (format_of f = "list" ->
   forall items, data = VList items ->
     r = Ok tt /\ stdout_of (trace (cli_world s)) = map PrintValue items) /\
  (format_of f = "dict" ->
   (forall members, data = VDict members -> NoDup (map fst members) ->
      r = Ok tt /\ stdout_of (trace (cli_world s)) = map member_line members) /\
   (forall ds, data = VList (map VDict ds) ->
      Forall (fun members => NoDup (map fst members)) ds ->
      r = Ok tt /\ stdout_of (trace (cli_world s)) = flat_map mapping_block ds)).
Proof.
  intros Hrun Hin Hproc Htruthy.
  pose proof (run_prints E f p r s endpoint procedure params data Hrun Hin Hproc)
    as Hprints.
  rewrite Htruthy in Hprints.
  split; [|split]; intros Hf; rewrite Hf in Hprints.
  - rewrite printed_plain in Hprints. inversion Hprints. auto.
  - intros items ->. rewrite printed_list in Hprints.
    inversion Hprints. auto.
  - split.
    + intros members -> Hnd. rewrite (printed_dict members Hnd) in Hprints.
      inversion Hprints. auto.
    + intros ds -> Hnd. rewrite (printed_dicts ds Hnd) in Hprints.
      inversion Hprints. auto.
Qed.

Lemma result_is_printed_in_the_format_of_the_flag_witness :
  fst (run demo_wiki Finfo demo_parser) = Ok tt /\
  stdout_of (trace (cli_world (snd (run demo_wiki Finfo demo_parser)))) =
    [PrintKeyValue "name" (VStr "start");
     PrintKeyValue "version" (VInt 1210000000)].
Proof.
  refine (proj1 (proj2 (proj2
            (result_is_printed_in_the_format_of_the_flag demo_wiki Finfo
               demo_parser
               (fst (run demo_wiki Finfo demo_parser))
               (snd (run demo_wiki Finfo demo_parser))
               "http://wiki.example.org/lib/exe/xmlrpc.php?u=admin&p=secret"
               "wiki.getPageInfo" [VStr "start"]
               (VDict [("name", VStr "start"); ("version", VInt 1210000000)])
               (surjective_pairing _) _ _ eq_refl)) eq_refl)
            [("name", VStr "start"); ("version", VInt 1210000000)] eq_refl _).
  - vm_compute. right. right. right. left. reflexivity.
  - discriminate.
  - repeat constructor; cbn; intuition discriminate.
Defined.

(** C6 as stated fails: the format follows the flag, not the structure of the
    result.  A list answered to [--raw] goes out in one [print], not one item
    per line; the list of mappings [wiki.getAllPages] answers to [--allpages]
    goes out one whole mapping per [print], not as [key: value] lines. *)
Lemma format_follows_the_flag_not_the_structure :
  (truthy (VList [VStr "a"; VStr "b"]) = true /\
   In (EvRpc "http://wiki.example.org/lib/exe/xmlrpc.php?u=admin&p=secret"
         "wiki.getPage" [VStr "start"] (Response (VList [VStr "a"; VStr "b"])))
      (trace (cli_world (snd (run listing_wiki Fraw demo_parser)))) /\
   stdout_of (trace (cli_world (snd (run listing_wiki Fraw demo_parser)))) =
     [PrintValue (VList [VStr "a"; VStr "b"])] /\
   spec_format_by_structure (VList [VStr "a"; VStr "b"]) =
     [PrintValue (VStr "a"); PrintValue (VStr "b")] /\
   stdout_of (trace (cli_world (snd (run listing_wiki Fraw demo_parser)))) <>
     spec_format_by_structure (VList [VStr "a"; VStr "b"])) /\
  (stdout_of (trace (cli_world (snd (run demo_wiki Fallpages demo_parser)))) =
     [PrintValue (VDict [("id", VStr "start"); ("size", VInt 19)]);
      PrintValue (VDict [("id", VStr "wiki:syntax"); ("size", VInt 4711)])] /\
   spec_format_by_structure
     (VList [VDict [("id", VStr "start"); ("size", VInt 19)];
             VDict [("id", VStr "wiki:syntax"); ("size", VInt 4711)]]) =
     [PrintKeyValue "id" (VStr "start"); PrintKeyValue "size" (VInt 19);
      PrintKeyValue "id" (VStr "wiki:syntax"); PrintKeyValue "size" (VInt 4711)]).
Proof.
  split.
  - split; [reflexivity|].
    split; [vm_compute; right; right; right; left; reflexivity|].
    split; [vm_compute; reflexivity|]. split; [reflexivity|].
    vm_compute. discriminate.
  - split; vm_compute; reflexivity.
Qed.

(** C9.  When the dispatched method's result is falsy, the run ends normally
    and prints nothing. *)
Theorem falsy_result_prints_nothing (E : environment) (f : flag)
  (p : OptionParser) (r : result unit) (s : cli_state)
  (endpoint procedure : string) (params : list value) (data : value) :
  run E f p = (r, s) ->
  In (EvRpc endpoint procedure params (Response data)) (trace (cli_world s)) ->
  procedure <> "dokuwiki.getVersion" ->
  truthy data = false ->
  r = Ok tt /\ stdout_of (trace (cli_world s)) = [].
Proof.
  intros Hrun Hin Hproc Hfalsy.
  pose proof (run_prints E f p r s endpoint procedure params data Hrun Hin Hproc)
    as Hprints.
  rewrite Hfalsy in Hprints. inversion Hprints. auto.
Qed.

Lemma falsy_result_prints_nothing_witness :
  fst (run empty_wiki Fbacklinks demo_parser) = Ok tt /\
  stdout_of (trace (cli_world (snd (run empty_wiki Fbacklinks demo_parser)))) = [].
Proof.
  refine (falsy_result_prints_nothing empty_wiki Fbacklinks demo_parser
            (fst (run empty_wiki Fbacklinks demo_parser))
            (snd (run empty_wiki Fbacklinks demo_parser))
            "http://wiki.example.org/lib/exe/xmlrpc.php?u=admin&p=secret"
            "wiki.getBackLinks" [VStr "start"] (VList [])
            (surjective_pairing _) _ _ eq_refl).
  - vm_compute. right. right. right. left. reflexivity.
  - discriminate.
Defined.


(** * Further properties of the code *)

(** ** The client *)

(** X1.  A positional call of a public method that the table gives a request
    for, with parameters [xmlrpclib] can marshal, makes exactly that call on
    the client's proxy, and hands back the response, the typed error for a
    fault, or the library's exception ([put_page]: [None] in place of the
    response). *)
Theorem call_follows_request_table (E : environment) (m : method)
  (args : list value) (s : client_state) (proxy : ServerProxy)
  (procedure : string) (params : list value) :
  _xmlrpc (self s) = Some proxy ->
  remote_request m args = Some (procedure, params) ->
  forallb marshals params = true ->
  call_method E m args s =
  (handed_back m (transport E (trace (outside s)) (uri proxy) procedure params),
   called s (uri proxy) procedure params
     (transport E (trace (outside s)) (uri proxy) procedure params)).
Proof.
  intros Hproxy Hreq _.
  destruct m;
    repeat (destruct args as [|? args]; try discriminate Hreq);
    cbn [remote_request] in Hreq;
    try (match type of Hreq with context [truthy ?x] =>
           destruct (truthy x) eqn:Htruthy end);
    inversion Hreq; subst; clear Hreq;
    cbn [call_method];
    unfold rpc_version_supported, page, page_versions, page_info, page_html,
      all_pages, backlinks, links, recent_changes, acl_check;
    cbn [truthy negb]; try rewrite Htruthy; cbn [negb];
    first [rewrite guarded_call | rewrite put_page_call];
    rewrite Hproxy; cbv zeta; cbn [handed_back];
    try reflexivity;
    destruct (transport E _ _ _ _); reflexivity.
Qed.

Lemma call_follows_request_table_witness :
  call_method demo_wiki Mpage_versions [VStr "start"] demo_state =
  (handed_back Mpage_versions
     (transport demo_wiki (trace (outside demo_state))
        "http://wiki.example.org/lib/exe/xmlrpc.php?u=admin&p=secret"
        "wiki.getPageVersions" [VStr "start"; VInt 0]),
   called demo_state
     "http://wiki.example.org/lib/exe/xmlrpc.php?u=admin&p=secret"
     "wiki.getPageVersions" [VStr "start"; VInt 0]
     (transport demo_wiki (trace (outside demo_state))
        "http://wiki.example.org/lib/exe/xmlrpc.php?u=admin&p=secret"
        "wiki.getPageVersions" [VStr "start"; VInt 0])).
Proof.
  apply (call_follows_request_table demo_wiki Mpage_versions [VStr "start"]
           demo_state
           (mkServerProxy "http://wiki.example.org/lib/exe/xmlrpc.php?u=admin&p=secret")
           "wiki.getPageVersions" [VStr "start"; VInt 0]);
    vm_compute; reflexivity.
Defined.

(** What [put_page] hands the proxy when [minor] is left at its default is a
    struct with a [None] in it, which the proxy of this client cannot
    marshal: the table's rows for that default never meet the condition of
    the theorem above. *)
Lemma default_minor_does_not_marshal (page_id text summary : value)
  (procedure : string) (params : list value) :
  remote_request Mput_page [page_id; text] = Some (procedure, params) \/
  remote_request Mput_page [page_id; text; summary] = Some (procedure, params) ->
  forallb marshals params = false.
Proof.
  intros [H | H]; inversion H; subst; cbn;
    rewrite !andb_false_r; reflexivity.
Qed.

(** X2.  A revision that is falsy (0, the empty string, [None], [False]) is
    no revision: [page], [page_info] and [page_html] then do exactly what
    they do without one. *)
Theorem falsy_revision_is_no_revision (E : environment)
  (page_id revision : value) (s : client_state) :
  truthy revision = false ->
  page E page_id revision s = page E page_id VNone s /\
  page_info E page_id revision s = page_info E page_id VNone s /\
  page_html E page_id revision s = page_html E page_id VNone s.
Proof.
  intros Hfalsy. unfold page, page_info, page_html.
  rewrite Hfalsy. cbn [truthy negb]. repeat split.
Qed.

Lemma falsy_revision_is_no_revision_witness :
  page demo_wiki (VStr "start") (VInt 0) demo_state =
    page demo_wiki (VStr "start") VNone demo_state /\
  page_info demo_wiki (VStr "start") (VInt 0) demo_state =
    page_info demo_wiki (VStr "start") VNone demo_state /\
  page_html demo_wiki (VStr "start") (VInt 0) demo_state =
    page_html demo_wiki (VStr "start") VNone demo_state.
Proof.
  apply (falsy_revision_is_no_revision demo_wiki (VStr "start") (VInt 0)
           demo_state).
  reflexivity.
Defined.

Lemma after_calls_cons (E : environment) (m : method) (args : list value)
  (calls : list (method * list value)) (s : client_state) :
  after_calls E ((m, args) :: calls) s =
  after_calls E calls (snd (call_method E m args s)).
Proof. reflexivity. Qed.

(** X3.  Whatever public methods are called one after another, and however
    each ends, the world changes by remote calls only and by at most one per
    call: no reachability check is repeated, nothing is printed, and
    [xmlrpclib]'s class attributes stay as they were. *)
Theorem calls_add_at_most_one_remote_call_each (E : environment)
  (calls : list (method * list value)) (s : client_state) :
  exists evs,
    trace (outside (after_calls E calls s)) = (trace (outside s) ++ evs)%list /\
    length evs <= length calls /\
    forallb is_rpc evs = true /\
    Transport_user_agent (outside (after_calls E calls s)) =
      Transport_user_agent (outside s) /\
    SafeTransport_user_agent (outside (after_calls E calls s)) =
      SafeTransport_user_agent (outside s).
Proof.
  revert s. induction calls as [|[m args] calls IH]; intros s.
  - exists []. cbn. rewrite app_nil_r. auto.
  - rewrite after_calls_cons.
    destruct (IH (snd (call_method E m args s))) as (evs & Ht & Hlen & Hrpc & H1 & H2).
    pose proof (call_method_step E m args s) as Hstep.
    destruct Hstep as [r Hr | proxy procedure params o r Hp Ho Hr].
    + exists evs. cbn [length]. repeat split; auto.
    + exists (EvRpc (uri proxy) procedure params o :: evs).
      rewrite Ht, H1, H2. cbn. rewrite <- app_assoc. cbn.
      repeat split; auto. lia.
Qed.

(** ** Construction, case by case *)

Lemma new_DokuWikiClient_first_check (E : environment) (url user passwd : string)
  (w : world) :
  urlopen E (trace w) (check_url url) <> Reached ->
  new_DokuWikiClient E url user passwd w =
  (match urlopen E (trace w) (check_url url) with
   | UrlFailure name => Raise (OtherException name)
   | _ => Raise (RaisedURLError (DokuWikiURLError_init url))
   end,
   log_event (EvUrlOpen (check_url url) (urlopen E (trace w) (check_url url))) w).
Proof.
  intros Hne.
  unfold new_DokuWikiClient, DokuWikiClient_init_body.
  unfold bind at 1. rewrite _xmlrpc_init_eq. cbv zeta.
  cbn [self outside fresh_client _url].
  destruct (urlopen E (trace w) (check_url url)); [contradiction| | |]; reflexivity.
Qed.

(** X4.  When the probe of the URL ends in [ValueError] or [HTTPError], the
    constructor raises [DokuWikiURLError] for the URL as the caller gave it:
    after that single probe nothing else was tried, no remote procedure was
    called, and the error reads [DokuWikiURLError: Could not connect to
    <url>]. *)
Theorem unreachable_url_raises_DokuWikiURLError (E : environment)
  (url user passwd : string) (w : world) :
  urlopen E (trace w) (check_url url) = UrlValueError \/
  urlopen E (trace w) (check_url url) = UrlHTTPError ->
  new_DokuWikiClient E url user passwd w =
    (Raise (RaisedURLError (DokuWikiURLError_init url)),
     log_event (EvUrlOpen (check_url url) (urlopen E (trace w) (check_url url))) w) /\
  DokuWikiURLError_str (DokuWikiURLError_init url) =
    "DokuWikiURLError: Could not connect to <" ++ url ++ ">".
Proof.
  intros Hprobe. split; [|reflexivity].
  rewrite new_DokuWikiClient_first_check.
  - destruct Hprobe as [-> | ->]; reflexivity.
  - destruct Hprobe as [-> | ->]; discriminate.
Qed.

Lemma unreachable_url_raises_DokuWikiURLError_witness :
  new_DokuWikiClient unreachable_wiki "http://wiki.example.org" "admin" "secret"
    initial_world =
    (Raise (RaisedURLError (DokuWikiURLError_init "http://wiki.example.org")),
     log_event
       (EvUrlOpen (check_url "http://wiki.example.org")
          (urlopen unreachable_wiki (trace initial_world)
             (check_url "http://wiki.example.org")))
       initial_world) /\
  DokuWikiURLError_str (DokuWikiURLError_init "http://wiki.example.org") =
    "DokuWikiURLError: Could not connect to <" ++ "http://wiki.example.org" ++ ">".
Proof.
  apply (unreachable_url_raises_DokuWikiURLError unreachable_wiki
           "http://wiki.example.org" "admin" "secret" initial_world).
  right. reflexivity.
Defined.

(** X5.  Any other failure of the probe (a refused connection, an unknown
    host) leaves the constructor as the exception it is: it is not turned
    into one of the module's errors. *)
Theorem other_probe_failure_escapes_the_constructor (E : environment)
  (url user passwd : string) (w : world) (name : string) :
  urlopen E (trace w) (check_url url) = UrlFailure name ->
  new_DokuWikiClient E url user passwd w =
    (Raise (OtherException name),
     log_event (EvUrlOpen (check_url url) (UrlFailure name)) w) /\
  is_DokuWikiError (OtherException name) = false.
Proof.
  intros Hprobe. split; [|reflexivity].
  rewrite new_DokuWikiClient_first_check; rewrite Hprobe;
    [reflexivity | discriminate].
Qed.

Lemma other_probe_failure_escapes_the_constructor_witness :
  new_DokuWikiClient refusing_wiki "http://wiki.example.org" "admin" "secret"
    initial_world =
    (Raise (OtherException "urllib2.URLError"),
     log_event (EvUrlOpen (check_url "http://wiki.example.org")
                  (UrlFailure "urllib2.URLError")) initial_world) /\
  is_DokuWikiError (OtherException "urllib2.URLError") = false.
Proof.
  apply (other_probe_failure_escapes_the_constructor refusing_wiki
           "http://wiki.example.org" "admin" "secret" initial_world
           "urllib2.URLError").
  reflexivity.
Defined.

Lemma new_DokuWikiClient_handshake (E : environment) (url user passwd : string)
  (w : world) :
  urlopen E (trace w) (check_url url) = Reached ->
  urlopen E (trace w ++ [EvUrlOpen (check_url url) Reached])%list (check_url url)
    = Reached ->
  new_DokuWikiClient E url user passwd w =
  let probes := [EvUrlOpen (check_url url) Reached;
                 EvUrlOpen (check_url url) Reached] in
  let o := transport E (trace w ++ probes)%list (endpoint_of E url user passwd)
             "dokuwiki.getVersion" [] in
  (match o with
   | Response version => Ok (built_client E url user passwd version)
   | FaultResponse faultCode faultString =>
       Raise (RaisedXMLRPCError
                (DokuWikiXMLRPCError_init (ObjFault faultCode faultString)))
   | CallFailure name => Raise (OtherException name)
   end,
   announced w (probes ++
                [EvRpc (endpoint_of E url user passwd) "dokuwiki.getVersion" [] o])).
Proof.
  intros H1 H2.
  unfold new_DokuWikiClient, DokuWikiClient_init_body, _dokuwiki_version,
    fresh_client.
  unfold bind at 1. rewrite _xmlrpc_init_eq. cbv zeta.
  cbn [self outside fresh_client _url _user _passwd _user_agent].
  rewrite H1. cbn [after_check self outside fresh_client _url _user _passwd
                   _user_agent log_event trace].
  unfold bind at 1. rewrite _xmlrpc_init_eq. cbv zeta.
  cbn [self outside trace _url _user _passwd _user_agent].
  rewrite H2. cbn [after_check self outside _url _user _passwd _user_agent
                   log_event trace].
  unfold bind at 1. unfold modify at 1. unfold bind at 1.
  unfold try_except at 1. rewrite guarded_call.
  cbn [self outside _xmlrpc uri trace]. cbv zeta.
  rewrite <- !app_assoc. cbn [app].
  unfold announced, the_user_agent, called, modify, __version__.
  destruct (transport E _ _ _ _); cbn; unfold log_event; cbn;
    rewrite <- ?app_assoc; reflexivity.
Qed.

(** X6.  When the wiki is reachable and answers the handshake with a fault,
    the constructor raises [DokuWikiXMLRPCError] with the fault's code and
    message; by then both probes and the one handshake call were made and
    [xmlrpclib]'s user agent was already replaced. *)
Theorem handshake_fault_raises_typed_error (E : environment)
  (url user passwd : string) (w : world) (faultCode : Z) (faultString : string) :
  urlopen E (trace w) (check_url url) = Reached ->
  urlopen E (trace w ++ [EvUrlOpen (check_url url) Reached])%list (check_url url)
    = Reached ->
  transport E
    (trace w ++ [EvUrlOpen (check_url url) Reached;
                 EvUrlOpen (check_url url) Reached])%list
    (endpoint_of E url user passwd) "dokuwiki.getVersion" []
    = FaultResponse faultCode faultString ->
  new_DokuWikiClient E url user passwd w =
  (Raise (RaisedXMLRPCError
            {| page_id := faultCode; message := ObjValue (VStr faultString) |}),
   announced w
     [EvUrlOpen (check_url url) Reached;
      EvUrlOpen (check_url url) Reached;
      EvRpc (endpoint_of E url user passwd) "dokuwiki.getVersion" []
        (FaultResponse faultCode faultString)]).
Proof.
  intros H1 H2 H3.
  rewrite (new_DokuWikiClient_handshake E url user passwd w H1 H2).
  cbv zeta. rewrite H3. reflexivity.
Qed.

Lemma handshake_fault_raises_typed_error_witness :
  new_DokuWikiClient forbidding_wiki "http://wiki.example.org" "admin" "secret"
    initial_world =
  (Raise (RaisedXMLRPCError
            {| page_id := 403; message := ObjValue (VStr "Forbidden") |}),
   announced initial_world
     [EvUrlOpen (check_url "http://wiki.example.org") Reached;
      EvUrlOpen (check_url "http://wiki.example.org") Reached;
      EvRpc (endpoint_of forbidding_wiki "http://wiki.example.org" "admin" "secret")
        "dokuwiki.getVersion" [] (FaultResponse 403 "Forbidden")]).
Proof.
  apply (handshake_fault_raises_typed_error forbidding_wiki
           "http://wiki.example.org" "admin" "secret" initial_world 403%Z
           "Forbidden"); reflexivity.
Defined.

(** X7.  When both probes reach the wiki and the handshake is answered, the
    constructor succeeds: the client keeps the three arguments, its proxy is
    built on [url/lib/exe/xmlrpc.php?] followed by the encoded credentials,
    [dokuwiki_version] is the answer of the handshake, and both
    [xmlrpclib.Transport.user_agent] and [xmlrpclib.SafeTransport.user_agent]
    are left set to the client's user agent. *)
Theorem reachable_wiki_gives_a_client (E : environment)
  (url user passwd : string) (w : world) (version : value) :
  urlopen E (trace w) (check_url url) = Reached ->
  urlopen E (trace w ++ [EvUrlOpen (check_url url) Reached])%list (check_url url)
    = Reached ->
  transport E
    (trace w ++ [EvUrlOpen (check_url url) Reached;
                 EvUrlOpen (check_url url) Reached])%list
    (endpoint_of E url user passwd) "dokuwiki.getVersion" []
    = Response version ->
  new_DokuWikiClient E url user passwd w =
  (Ok {| _url := url; _user := user; _passwd := passwd;
         _user_agent := "DokuWikiXMLRPC 0.1by (www.chimeric.de)";
         _xmlrpc := Some (mkServerProxy
                            (url ++ "/lib/exe/xmlrpc.php?" ++
                             urlencode E [("u", user); ("p", passwd)]));
         dokuwiki_version := Some version |},
   {| trace := (trace w ++ construction_events E url user passwd version)%list;
      Transport_user_agent := Some "DokuWikiXMLRPC 0.1by (www.chimeric.de)";
      SafeTransport_user_agent := Some "DokuWikiXMLRPC 0.1by (www.chimeric.de)" |}).
Proof.
  intros H1 H2 H3.
  rewrite (new_DokuWikiClient_handshake E url user passwd w H1 H2).
  cbv zeta. rewrite H3. reflexivity.
Qed.

Lemma reachable_wiki_gives_a_client_witness :
  new_DokuWikiClient demo_wiki "http://wiki.example.org" "admin" "secret"
    initial_world =
  (Ok {| _url := "http://wiki.example.org"; _user := "admin"; _passwd := "secret";
         _user_agent := "DokuWikiXMLRPC 0.1by (www.chimeric.de)";
         _xmlrpc := Some (mkServerProxy
                            ("http://wiki.example.org" ++ "/lib/exe/xmlrpc.php?" ++
                             urlencode demo_wiki [("u", "admin"); ("p", "secret")]));
         dokuwiki_version := Some (VStr "Release 2008-05-05") |},
   {| trace := (trace initial_world ++
                construction_events demo_wiki "http://wiki.example.org" "admin"
                  "secret" (VStr "Release 2008-05-05"))%list;
      Transport_user_agent := Some "DokuWikiXMLRPC 0.1by (www.chimeric.de)";
      SafeTransport_user_agent := Some "DokuWikiXMLRPC 0.1by (www.chimeric.de)" |}).
Proof.
  apply (reachable_wiki_gives_a_client demo_wiki "http://wiki.example.org"
           "admin" "secret" initial_world (VStr "Release 2008-05-05"));
    reflexivity.
Defined.

(** ** The typed error *)

(** X8.  Two objects give the same [DokuWikiXMLRPCError] exactly when they
    are the same object, or one is a fault with code 0 and the other is that
    fault's message string: code 0 with a string message does not tell a
    local error from a remote fault. *)
Theorem typed_errors_coincide_only_at_code_zero (a b : pyobj) :
  DokuWikiXMLRPCError_init a = DokuWikiXMLRPCError_init b <->
  a = b \/
  (exists s, a = ObjFault 0 s /\ b = ObjValue (VStr s)) \/
  (exists s, a = ObjValue (VStr s) /\ b = ObjFault 0 s).
Proof.
  split.
  - destruct a as [c s | v], b as [c' s' | v']; cbn; intros H;
      inversion H; subst; eauto.
  - intros [-> | [(s & -> & ->) | (s & -> & ->)]]; reflexivity.
Qed.

(** ** The front end, case by case *)

(** X9.  When the user, the wiki or the password is missing or empty at the
    moment the operation flag is met, the run only prints the usage line: no
    client is built and the network is not touched. *)
Theorem missing_credentials_only_print_usage (E : environment) (f : flag)
  (p : OptionParser) :
  credentials_given p = false ->
  run E f p =
  (Ok tt, cli_logged (EvStdout PrintUsage) (initial_cli_state p)).
Proof.
  intros Hcred. unfold run, Callback_init, credentials_given in *.
  unfold bind at 1. unfold get at 1. cbn [initial_cli_state parser].
  destruct (user (values p)), (wiki (values p)), (passwd (values p));
    try reflexivity.
  rewrite Hcred. reflexivity.
Qed.

Lemma missing_credentials_only_print_usage_witness :
  run demo_wiki Fraw
    {| values := {| user := Some "admin"; wiki := Some "http://wiki.example.org";
                    passwd := Some ""; timestamp := None |};
       rargs := ["start"] |} =
  (Ok tt,
   cli_logged (EvStdout PrintUsage)
     (initial_cli_state
        {| values := {| user := Some "admin"; wiki := Some "http://wiki.example.org";
                        passwd := Some ""; timestamp := None |};
           rargs := ["start"] |})).
Proof.
  apply (missing_credentials_only_print_usage demo_wiki Fraw
           {| values := {| user := Some "admin";
                           wiki := Some "http://wiki.example.org";
                           passwd := Some ""; timestamp := None |};
              rargs := ["start"] |}).
  reflexivity.
Defined.

Lemma run_with_credentials (E : environment) (f : flag) (p : OptionParser)
  (u wk pw : string) :
  user (values p) = Some u -> wiki (values p) = Some wk ->
  passwd (values p) = Some pw -> credentials_given p = true ->
  run E f p =
  match new_DokuWikiClient E wk u pw initial_world with
  | (Ok c, w1) =>
      (r <- dispatch E (dest f) ;;
       match r with
       | None => raise TypeError
       | Some (data, format) =>
           if truthy data then print_formatted data format else ret tt
       end) {| parser := p; dokuwiki := Some c; cli_world := w1 |}
  | (Raise e, w1) =>
      if is_DokuWikiError e
      then (Raise (SystemExit 2),
            {| parser := p; dokuwiki := None;
               cli_world := log_event (EvParserError (MsgError e)) w1 |})
      else (Raise e, {| parser := p; dokuwiki := None; cli_world := w1 |})
  end.
Proof.
  intros Hu Hwk Hpw Hcred. unfold credentials_given in Hcred.
  rewrite Hu, Hwk, Hpw in Hcred.
  unfold run, Callback_init. unfold bind at 1. unfold get at 1.
  cbn [initial_cli_state parser]. rewrite Hu, Hwk, Hpw, Hcred.
  unfold bind at 1. unfold try_except at 1. unfold assign_dokuwiki at 1.
  cbn [initial_cli_state cli_world parser dokuwiki].
  destruct (new_DokuWikiClient E wk u pw initial_world) as [[c | e] w1];
    [reflexivity|].
  destruct e; reflexivity.
Qed.

(** X10.  When the constructor raises one of the module's two errors, the
    run hands that error to [parser.error] and exits with status 2: no
    operation is dispatched, no argument is consumed and nothing goes to
    standard output. *)
Theorem construction_error_goes_to_parser_error (E : environment) (f : flag)
  (p : OptionParser) (u wk pw : string) (e : exn) (w1 : world) :
  user (values p) = Some u -> wiki (values p) = Some wk ->
  passwd (values p) = Some pw -> credentials_given p = true ->
  new_DokuWikiClient E wk u pw initial_world = (Raise e, w1) ->
  is_DokuWikiError e = true ->
  run E f p =
  (Raise (SystemExit 2),
   {| parser := p; dokuwiki := None;
      cli_world := log_event (EvParserError (MsgError e)) w1 |}).
Proof.
  intros Hu Hwk Hpw Hcred Hnew He.
  rewrite (run_with_credentials E f p u wk pw Hu Hwk Hpw Hcred), Hnew, He.
  reflexivity.
Qed.

Lemma construction_error_goes_to_parser_error_witness :
  run forbidding_wiki Fallpages demo_parser =
  (Raise (SystemExit 2),
   {| parser := demo_parser; dokuwiki := None;
      cli_world :=
        log_event
          (EvParserError
             (MsgError (RaisedXMLRPCError
                          {| page_id := 403;
                             message := ObjValue (VStr "Forbidden") |})))
          (snd (new_DokuWikiClient forbidding_wiki "http://wiki.example.org"
                  "admin" "secret" initial_world)) |}).
Proof.
  apply (construction_error_goes_to_parser_error forbidding_wiki Fallpages
           demo_parser "admin" "http://wiki.example.org" "secret");
    vm_compute; reflexivity.
Defined.

(** X11.  When the constructor fails with anything else (a refused
    connection, a transport failure of the handshake), the run ends with that
    exception as it is: [parser.error] is not called and nothing is
    printed. *)
Theorem other_construction_failure_escapes_the_run (E : environment) (f : flag)
  (p : OptionParser) (u wk pw : string) (e : exn) (w1 : world) :
  user (values p) = Some u -> wiki (values p) = Some wk ->
  passwd (values p) = Some pw -> credentials_given p = true ->
  new_DokuWikiClient E wk u pw initial_world = (Raise e, w1) ->
  is_DokuWikiError e = false ->
  run E f p = (Raise e, {| parser := p; dokuwiki := None; cli_world := w1 |}).
Proof.
  intros Hu Hwk Hpw Hcred Hnew He.
  rewrite (run_with_credentials E f p u wk pw Hu Hwk Hpw Hcred), Hnew, He.
  reflexivity.
Qed.

Lemma other_construction_failure_escapes_the_run_witness :
  run refusing_wiki Fallpages demo_parser =
  (Raise (OtherException "urllib2.URLError"),
   {| parser := demo_parser; dokuwiki := None;
      cli_world := snd (new_DokuWikiClient refusing_wiki
                          "http://wiki.example.org" "admin" "secret"
                          initial_world) |}).
Proof.
  apply (other_construction_failure_escapes_the_run refusing_wiki Fallpages
           demo_parser "admin" "http://wiki.example.org" "secret");
    vm_compute; reflexivity.
Defined.

(** X12.  [_get_page_id] takes the last of the remaining arguments as the
    page and removes it; the others stay, in order. *)
Theorem get_page_id_takes_the_last_argument (s : cli_state)
  (front : list string) (page : string) :
  rargs (parser s) = (front ++ [page])%list ->
  _get_page_id s = (Ok (VStr page), with_rargs front s).
Proof.
  intros Hrargs. unfold _get_page_id, try_except, rargs_pop, bind, get.
  rewrite Hrargs, rev_app_distr. cbn [rev app].
  unfold modify, ret, with_rargs. now rewrite rev_involutive.
Qed.

Lemma get_page_id_takes_the_last_argument_witness :
  _get_page_id
    (initial_cli_state {| values := values demo_parser;
                          rargs := ["wiki:syntax"; "start"] |}) =
  (Ok (VStr "start"),
   with_rargs ["wiki:syntax"]
     (initial_cli_state {| values := values demo_parser;
                           rargs := ["wiki:syntax"; "start"] |})).
Proof.
  apply (get_page_id_takes_the_last_argument
           (initial_cli_state {| values := values demo_parser;
                                 rargs := ["wiki:syntax"; "start"] |})
           ["wiki:syntax"] "start").
  reflexivity.
Defined.

(** X13.  With no argument left, [_get_page_id] reports [You have to specify
    a Wiki page.] through [parser.error] and the process exits with status 2;
    no page id is returned. *)
Theorem get_page_id_without_argument_exits (s : cli_state) :
  rargs (parser s) = [] ->
  _get_page_id s = (Raise (SystemExit 2), cli_logged no_page_given s).
Proof.
  intros Hrargs. unfold _get_page_id, try_except, rargs_pop, bind, get.
  rewrite Hrargs. reflexivity.
Qed.

Lemma get_page_id_without_argument_exits_witness :
  _get_page_id
    (initial_cli_state {| values := values demo_parser; rargs := [] |}) =
  (Raise (SystemExit 2),
   cli_logged no_page_given
     (initial_cli_state {| values := values demo_parser; rargs := [] |})).
Proof.
  apply (get_page_id_without_argument_exits
           (initial_cli_state {| values := values demo_parser; rargs := [] |})).
  reflexivity.
Defined.

(** X14.  [--changes] without [--time], or with [--time 0], asks for the
    changes since the current time and writes that time into
    [parser.values.timestamp]; with a non-zero [--time] it asks for the
    changes since then and leaves the parser as it is. *)
Theorem changes_default_to_the_current_time (E : environment) (s : cli_state)
  (c : DokuWikiClient) (proxy : ServerProxy) :
  dokuwiki s = Some c -> _xmlrpc c = Some proxy ->
  (truthy (timestamp_value (timestamp (values (parser s)))) = false ->
   dispatch E "recent_changes" s =
   (match reply (transport E (trace (cli_world s)) (uri proxy)
                   "wiki.getRecentChanges" [VInt (clock E)]) with
    | Ok data => Ok (Some (data, "dict"))
    | Raise e => Raise e
    end,
    cli_logged
      (EvRpc (uri proxy) "wiki.getRecentChanges" [VInt (clock E)]
         (transport E (trace (cli_world s)) (uri proxy)
            "wiki.getRecentChanges" [VInt (clock E)]))
      (with_timestamp (Some (clock E)) s))) /\
  (forall t, timestamp (values (parser s)) = Some t -> t <> 0%Z ->
   dispatch E "recent_changes" s =
   (match reply (transport E (trace (cli_world s)) (uri proxy)
                   "wiki.getRecentChanges" [VInt t]) with
    | Ok data => Ok (Some (data, "dict"))
    | Raise e => Raise e
    end,
    cli_logged
      (EvRpc (uri proxy) "wiki.getRecentChanges" [VInt t]
         (transport E (trace (cli_world s)) (uri proxy)
            "wiki.getRecentChanges" [VInt t]))
      s)).
Proof.
  intros Hc Hp.
  destruct s as [[[u wk pw t] ra] dw w]. cbn in Hc. subst dw.
  destruct c as [cu cus cp cua cx cv]. cbn in Hp. subst cx.
  cbn [parser values timestamp cli_world].
  assert (Hgo : forall t0,
    (if negb (truthy (timestamp_value t)) then Some (clock E) else t) = Some t0 ->
    dispatch E "recent_changes"
      {| parser := {| values := {| user := u; wiki := wk; passwd := pw;
                                   timestamp := t |}; rargs := ra |};
         dokuwiki := Some {| _url := cu; _user := cus; _passwd := cp;
                             _user_agent := cua; _xmlrpc := Some proxy;
                             dokuwiki_version := cv |};
         cli_world := w |} =
    (match reply (transport E (trace w) (uri proxy)
                    "wiki.getRecentChanges" [VInt t0]) with
     | Ok data => Ok (Some (data, "dict"))
     | Raise e => Raise e
     end,
     {| parser := {| values := {| user := u; wiki := wk; passwd := pw;
                                  timestamp :=
                                    if negb (truthy (timestamp_value t))
                                    then Some (clock E) else t |};
                     rargs := ra |};
        dokuwiki := Some {| _url := cu; _user := cus; _passwd := cp;
                            _user_agent := cua; _xmlrpc := Some proxy;
                            dokuwiki_version := cv |};
        cli_world := log_event
                       (EvRpc (uri proxy) "wiki.getRecentChanges" [VInt t0]
                          (transport E (trace w) (uri proxy)
                             "wiki.getRecentChanges" [VInt t0])) w |})).
  { intros t0 Ht0.
    unfold dispatch, get_timestamp, set_timestamp, dokuwiki_getattribute,
      call_attribute, on_client.
    cbn [String.eqb Ascii.eqb Bool.eqb orb].
    unfold bind, get, modify, ret, raise.
    cbn [dokuwiki getattribute find public_methods method_name String.eqb
         Ascii.eqb Bool.eqb parser rargs values timestamp cli_world].
    destruct (negb (truthy (timestamp_value t)));
      cbn [parser rargs values timestamp cli_world dokuwiki call_method];
      rewrite Ht0; cbn [timestamp_value];
      unfold recent_changes; rewrite guarded_call;
      cbn [self outside _xmlrpc]; cbv zeta;
      destruct (transport E _ _ _ _); reflexivity. }
  split.
  - intros Hfalsy. rewrite (Hgo (clock E)); rewrite Hfalsy; reflexivity.
  - intros t0 -> Hne. rewrite (Hgo t0).
    + cbn. destruct (Z.eqb_spec t0 0); [contradiction|]. reflexivity.
    + cbn. destruct (Z.eqb_spec t0 0); [contradiction|]. reflexivity.
Qed.

Lemma changes_default_to_the_current_time_witness :
  dispatch demo_wiki "recent_changes" demo_cli_state =
  (match reply (transport demo_wiki (trace (cli_world demo_cli_state))
                  "http://wiki.example.org/lib/exe/xmlrpc.php?u=admin&p=secret"
                  "wiki.getRecentChanges" [VInt (clock demo_wiki)]) with
   | Ok data => Ok (Some (data, "dict"))
   | Raise e => Raise e
   end,
   cli_logged
     (EvRpc "http://wiki.example.org/lib/exe/xmlrpc.php?u=admin&p=secret"
        "wiki.getRecentChanges" [VInt (clock demo_wiki)]
        (transport demo_wiki (trace (cli_world demo_cli_state))
           "http://wiki.example.org/lib/exe/xmlrpc.php?u=admin&p=secret"
           "wiki.getRecentChanges" [VInt (clock demo_wiki)]))
     (with_timestamp (Some (clock demo_wiki)) demo_cli_state)).
Proof.
  apply (proj1 (changes_default_to_the_current_time demo_wiki demo_cli_state
                  (built_client demo_wiki "http://wiki.example.org" "admin"
                     "secret" (VStr "Release 2008-05-05"))
                  (mkServerProxy
                     "http://wiki.example.org/lib/exe/xmlrpc.php?u=admin&p=secret")
                  eq_refl eq_refl)).
  reflexivity.
Defined.

(** ** What a run sends *)

(** The one remote call of a run besides the handshake, and how the run ends
    with it. *)
Lemma run_operation_event (E : environment) (f : flag) (p : OptionParser)
  (r : result unit) (s : cli_state) (endpoint procedure : string)
  (params : list value) (o : outcome) :
  run E f p = (r, s) ->
  In (EvRpc endpoint procedure params o) (trace (cli_world s)) ->
  procedure <> "dokuwiki.getVersion" ->
  exists u wk pw version page,
    user (values p) = Some u /\ wiki (values p) = Some wk /\
    passwd (values p) = Some pw /\
    (needs_page f = false \/ page_argument p = Some page) /\
    endpoint = endpoint_of E wk u pw /\
    (procedure, params) =
      request_of E f (timestamp_value (timestamp (values p))) (VStr page) /\
    r = fst (ending f o) /\
    trace (cli_world s) =
      (construction_events E wk u pw version ++
       [EvRpc endpoint procedure params o] ++
       map EvStdout (snd (ending f o)))%list.
Proof.
  intros Hrun Hin Hproc. apply run_inv in Hrun.
  destruct Hrun as [Hcred | e evs Hcred Hout Hrpcs
                   | u wk pw version Hcred Hu Hwk Hpw Hneeds Hpage
                   | u wk pw version page o' Hcred Hu Hwk Hpw Hpage Ho].
  - destruct Hin as [H | []]. discriminate.
  - apply rpcs_of_In in Hin. destruct Hrpcs as [Hr | Hr]; rewrite Hr in Hin.
    + destruct Hin.
    + destruct Hin as [H | []]. congruence.
  - apply rpcs_of_In in Hin. cbn in Hin.
    destruct Hin as [H | []]. congruence.
  - apply in_app_or in Hin. destruct Hin as [Hin | Hin].
    { apply rpcs_of_In in Hin. cbn in Hin. destruct Hin as [H | []]. congruence. }
    apply in_app_or in Hin. destruct Hin as [[Heq | []] | Hin].
    2:{ exfalso. eapply no_rpc_among_prints. exact Hin. }
    clear Ho. inversion Heq; subst; clear Heq.
    exists u, wk, pw, version, page. repeat split; auto.
    now destruct (request_of E f _ _).
Qed.



(** X16.  A run of the command line only reads: every remote procedure it
    calls is the handshake or one of the ten reading procedures, so
    [wiki.putPage] is never called from the command line. *)
Theorem command_line_only_reads (E : environment) (f : flag) (p : OptionParser)
  (r : result unit) (s : cli_state) :
  run E f p = (r, s) ->
  (forall procedure,
      In procedure (rpcs_of (trace (cli_world s))) ->
      In procedure reading_procedures) /\
  ~ In "wiki.putPage" (rpcs_of (trace (cli_world s))).
Proof.
  intros Hrun.
  assert (Hall : forall procedure,
             In procedure (rpcs_of (trace (cli_world s))) ->
             In procedure reading_procedures).
  { apply run_inv in Hrun.
    destruct Hrun as [Hcred | e evs Hcred Hout Hrpcs
                     | u wk pw version Hcred Hu Hwk Hpw Hneeds Hpage
                     | u wk pw version page o Hcred Hu Hwk Hpw Hpage Ho];
      intros procedure Hin.
    - destruct Hin.
    - destruct Hrpcs as [Hr | Hr]; rewrite Hr in Hin.
      + destruct Hin.
      + destruct Hin as [<- | []]. cbn. auto.
    - cbn in Hin. destruct Hin as [<- | []]. cbn. auto.
    - rewrite !rpcs_of_app, rpcs_of_map in Hin. cbn in Hin.
      destruct Hin as [<- | [<- | []]]; [cbn; auto|].
      destruct f; cbn [request_of];
        try destruct (truthy (timestamp_value (timestamp (values p))));
        cbn; tauto. }
  split; [exact Hall|].
  intros Hin. apply Hall in Hin. cbn in Hin.
  repeat (destruct Hin as [Hin | Hin]; [discriminate Hin|]). exact Hin.
Qed.

Lemma command_line_only_reads_witness :
  (forall procedure,
      In procedure
        (rpcs_of (trace (cli_world (snd (run demo_wiki Fraw demo_parser))))) ->
      In procedure reading_procedures) /\
  ~ In "wiki.putPage"
      (rpcs_of (trace (cli_world (snd (run demo_wiki Fraw demo_parser))))).
Proof.
  apply (command_line_only_reads demo_wiki Fraw demo_parser
           (fst (run demo_wiki Fraw demo_parser))
           (snd (run demo_wiki Fraw demo_parser))
           (surjective_pairing _)).
Defined.

(** X17.  When the operation of a run is answered with a fault, the run ends
    with the [DokuWikiXMLRPCError] of that fault as an uncaught exception:
    unlike a fault of the construction it does not go through
    [parser.error], and nothing is printed. *)
Theorem operation_fault_escapes_the_run (E : environment) (f : flag)
  (p : OptionParser) (r : result unit) (s : cli_state)
  (endpoint procedure : string) (params : list value)
  (faultCode : Z) (faultString : string) :
  run E f p = (r, s) ->
  In (EvRpc endpoint procedure params (FaultResponse faultCode faultString))
     (trace (cli_world s)) ->
  procedure <> "dokuwiki.getVersion" ->
  r = Raise (RaisedXMLRPCError
               {| page_id := faultCode; message := ObjValue (VStr faultString) |}) /\
  stdout_of (trace (cli_world s)) = [] /\
  count is_parser_error (trace (cli_world s)) = 0.
Proof.
  intros Hrun Hin Hproc.
  destruct (run_operation_event E f p r s endpoint procedure params _ Hrun Hin Hproc)
    as (u & wk & pw & version & page & _ & _ & _ & _ & _ & _ & Hr & Htrace).
  rewrite Htrace, Hr. repeat split.
Qed.

Lemma operation_fault_escapes_the_run_witness :
  fst (run locked_wiki Fbacklinks demo_parser) =
    Raise (RaisedXMLRPCError
             {| page_id := 1; message := ObjValue (VStr "No such page") |}) /\
  stdout_of (trace (cli_world (snd (run locked_wiki Fbacklinks demo_parser)))) = [] /\
  count is_parser_error
    (trace (cli_world (snd (run locked_wiki Fbacklinks demo_parser)))) = 0.
Proof.
  refine (operation_fault_escapes_the_run locked_wiki Fbacklinks demo_parser
            (fst (run locked_wiki Fbacklinks demo_parser))
            (snd (run locked_wiki Fbacklinks demo_parser))
            "http://wiki.example.org/lib/exe/xmlrpc.php?u=admin&p=secret"
            "wiki.getBackLinks" [VStr "start"] 1%Z "No such page"
            (surjective_pairing _) _ _).
  - vm_compute. right. right. right. left. reflexivity.
  - discriminate.
Defined.

(** ** The table of options and [dispatch] *)

Lemma bind_Ok {S A B : Type} (m : M S A) (k : A -> M S B) (s : S) (b : B) (s' : S) :
  bind m k s = (Ok b, s') ->
  exists a s1, m s = (Ok a, s1) /\ k a s1 = (Ok b, s').
Proof.
  unfold bind. destruct (m s) as [[a | e] s1]; [eauto | discriminate].
Qed.

Ltac chase_binds H :=
  repeat first
    [ apply bind_Ok in H; destruct H as (? & ? & _ & H)
    | match type of H with
      | (if ?b then _ else _) _ = _ => destruct b
      end ];
  discriminate H.

Lemma dispatch_never_falls_through (E : environment) (f : flag)
  (s s' : cli_state) :
  dispatch E (dest f) s <> (Ok None, s').
Proof.
  intros H.
  destruct f; unfold dispatch in H;
    cbn [dest String.eqb Ascii.eqb Bool.eqb orb] in H;
    chase_binds H.
Qed.

(** X18.  Every option that [main] registers with the [Callback] has a
    [dest] that names a public method of the client and that [dispatch] has a
    branch for: for none of them does [dispatch] fall through and return
    [None]. *)
Theorem callback_options_are_dispatched (o : option_spec) :
  In o main_options -> opt_action o = CallCallback ->
  (exists m, getattribute (opt_dest o) = Some (BoundMethod m) /\
             method_name m = opt_dest o) /\
  (exists f, dest f = opt_dest o) /\
  In (opt_dest o) dispatched_names /\
  forall E s s', dispatch E (opt_dest o) s <> (Ok None, s').
Proof.
  intros Hin Haction. cbn in Hin.
  repeat (destruct Hin as [<- | Hin]; [try discriminate Haction|]);
    try contradiction; cbn [opt_dest].
  - split; [exists Mpage; split; reflexivity|].
    split; [exists Fraw; reflexivity|]. split; [cbn; tauto|].
    intros E s s'. apply (dispatch_never_falls_through E Fraw).
  - split; [exists Mpage_html; split; reflexivity|].
    split; [exists Fhtml; reflexivity|]. split; [cbn; tauto|].
    intros E s s'. apply (dispatch_never_falls_through E Fhtml).
  - split; [exists Mpage_info; split; reflexivity|].
    split; [exists Finfo; reflexivity|]. split; [cbn; tauto|].
    intros E s s'. apply (dispatch_never_falls_through E Finfo).
  - split; [exists Mrecent_changes; split; reflexivity|].
    split; [exists Fchanges; reflexivity|]. split; [cbn; tauto|].
    intros E s s'. apply (dispatch_never_falls_through E Fchanges).
  - split; [exists Mpage_versions; split; reflexivity|].
    split; [exists Frevisions; reflexivity|]. split; [cbn; tauto|].
    intros E s s'. apply (dispatch_never_falls_through E Frevisions).
  - split; [exists Mbacklinks; split; reflexivity|].
    split; [exists Fbacklinks; reflexivity|]. split; [cbn; tauto|].
    intros E s s'. apply (dispatch_never_falls_through E Fbacklinks).
  - split; [exists Mall_pages; split; reflexivity|].
    split; [exists Fallpages; reflexivity|]. split; [cbn; tauto|].
    intros E s s'. apply (dispatch_never_falls_through E Fallpages).
  - split; [exists Mlinks; split; reflexivity|].
    split; [exists Flinks; reflexivity|]. split; [cbn; tauto|].
    intros E s s'. apply (dispatch_never_falls_through E Flinks).
Qed.

Lemma callback_options_are_dispatched_witness :
  (exists m, getattribute "page_versions" = Some (BoundMethod m) /\
             method_name m = "page_versions") /\
  (exists f, dest f = "page_versions") /\
  In "page_versions" dispatched_names /\
  forall E s s', dispatch E "page_versions" s <> (Ok None, s').
Proof.
  apply (callback_options_are_dispatched
           {| opt_strings := ["--revisions"]; opt_dest := "page_versions";
              opt_action := CallCallback |}).
  - cbn. do 7 right. left. reflexivity.
  - reflexivity.
Defined.

(** X19.  For a name [dispatch] has no branch for, [dispatch] does nothing:
    it returns [None] or raises [AttributeError], with no remote call made
    and no argument consumed; and it returns [None] whenever the name is
    that of a public method of an existing client. *)
Theorem dispatch_of_another_name_does_nothing (E : environment) (opt : string)
  (s : cli_state) :
  ~ In opt dispatched_names ->
  (dispatch E opt s = (Ok None, s) \/
   dispatch E opt s = (Raise AttributeError, s)) /\
  (forall c m, dokuwiki s = Some c -> method_name m = opt ->
               dispatch E opt s = (Ok None, s)).
Proof.
  intros Hnot.
  assert (Hne : forall name, In name dispatched_names -> (opt =? name) = false).
  { intros name Hin. destruct (String.eqb_spec opt name) as [-> | _];
      [contradiction | reflexivity]. }
  assert (Heq : dispatch E opt s =
                (match dokuwiki s, getattribute opt with
                 | Some _, Some _ => Ok None
                 | _, _ => Raise AttributeError
                 end, s)).
  { unfold dispatch.
    rewrite !Hne by (cbn; tauto). cbn [orb].
    unfold bind, dokuwiki_getattribute, bind, get.
    destruct (dokuwiki s); [|reflexivity].
    destruct (getattribute opt); reflexivity. }
  rewrite Heq. split.
  - destruct (dokuwiki s); [|now right].
    destruct (getattribute opt); [now left | now right].
  - intros c m Hc <-. rewrite Hc.
    destruct m; reflexivity.
Qed.

Lemma dispatch_of_another_name_does_nothing_witness :
  (dispatch demo_wiki "acl_check" demo_cli_state = (Ok None, demo_cli_state) \/
   dispatch demo_wiki "acl_check" demo_cli_state =
     (Raise AttributeError, demo_cli_state)) /\
  (forall c m, dokuwiki demo_cli_state = Some c -> method_name m = "acl_check" ->
               dispatch demo_wiki "acl_check" demo_cli_state =
               (Ok None, demo_cli_state)).
Proof.
  apply (dispatch_of_another_name_does_nothing demo_wiki "acl_check"
           demo_cli_state).
  cbn. intros H.
  repeat (destruct H as [H | H]; [discriminate H|]). exact H.
Defined.

(** ** Formatting, case by case *)

(** X20.  Formatting only prints: what it prints and how it ends is fixed by
    the data and the format alone, and it leaves the parser, the client and
    everything in the world but standard output untouched. *)
Theorem formatting_only_prints (data : value) (format : string) :
  exists r outs, forall s, print_formatted data format s = (r, emit outs s).
Proof.
  exact (print_formatted_some data format).
Qed.

(** X21.  Under the ['list'] format a result that is no list is still
    iterated: a string goes out one character per line, a mapping one key per
    line (the values are not printed), and a number or a boolean makes the
    loop raise [TypeError] with nothing printed. *)
Theorem list_format_of_other_results (s : cli_state) :
  (forall text,
      print_formatted (VStr text) "list" s =
      (Ok tt, emit (map PrintValue (characters text)) s)) /\
  (forall members,
      print_formatted (VDict members) "list" s =
      (Ok tt, emit (map (fun kv => PrintValue (VStr (fst kv))) members) s)) /\
  (forall n, print_formatted (VInt n) "list" s = (Raise TypeError, s)) /\
  (forall b, print_formatted (VBool b) "list" s = (Raise TypeError, s)).
Proof.
  unfold print_formatted. cbn [String.eqb Ascii.eqb Bool.eqb iterate].
  unfold bind, ret, raise, characters. repeat split; intros.
  - apply print_items_prints.
  - rewrite (print_items_prints _ s). now rewrite map_map.
Qed.

Lemma print_mapping_fails (item : value) (s : cli_state) :
  not_a_mapping item -> print_mapping item s = (Raise AttributeError, s).
Proof.
  destruct item; cbn; try reflexivity. contradiction.
Qed.

(** X22.  Under the ['dict'] format a list is printed mapping by mapping
    until the first item that is no mapping: the mappings before it are out
    already, each with its blank lines, when [AttributeError] ends the
    run. *)
Theorem dict_format_stops_at_the_first_non_mapping
  (ds : list (list (string * value))) (bad : value) (rest : list value)
  (s : cli_state) :
  Forall (fun members => NoDup (map fst members)) ds ->
  not_a_mapping bad ->
  print_formatted (VList (map VDict ds ++ bad :: rest)%list) "dict" s =
  (Raise AttributeError, emit (flat_map mapping_block ds) s).
Proof.
  intros Hnd Hbad.
  unfold print_formatted. cbn [String.eqb Ascii.eqb Bool.eqb].
  revert s. induction Hnd as [|members ds Hm _ IH]; intros s.
  - cbn [map app flat_map print_mappings]. unfold bind.
    rewrite (print_mapping_fails bad s Hbad). now rewrite emit_nil.
  - cbn [map app flat_map print_mappings]. unfold bind at 1.
    rewrite (print_mapping_prints members Hm s).
    unfold bind at 1. rewrite (prints_say (PrintText newline) _).
    rewrite IH, !emit_app. unfold mapping_block at 2.
    now rewrite <- app_assoc.
Qed.

Lemma dict_format_stops_at_the_first_non_mapping_witness :
  print_formatted
    (VList (map VDict [[("id", VStr "start")]] ++ VStr "sidebar" :: [])%list)
    "dict" demo_cli_state =
  (Raise AttributeError,
   emit (flat_map mapping_block [[("id", VStr "start")]]) demo_cli_state).
Proof.
  apply (dict_format_stops_at_the_first_non_mapping [[("id", VStr "start")]]
           (VStr "sidebar") [] demo_cli_state).
  - repeat constructor. cbn. tauto.
  - exact I.
Defined.

(** X23.  Under the ['dict'] format a result that is neither a list nor a
    mapping (a string, a number) raises [AttributeError] before anything is
    printed. *)
Theorem dict_format_of_a_scalar_fails (data : value) (s : cli_state) :
  not_a_mapping data -> (forall items, data <> VList items) ->
  print_formatted data "dict" s = (Raise AttributeError, s).
Proof.
  intros Hdata Hlist.
  unfold print_formatted. cbn [String.eqb Ascii.eqb Bool.eqb].
  destruct data; try reflexivity.
  - exfalso. eapply Hlist. reflexivity.
  - contradiction.
Qed.

Lemma dict_format_of_a_scalar_fails_witness :
  print_formatted (VStr "start") "dict" demo_cli_state =
  (Raise AttributeError, demo_cli_state).
Proof.
  apply (dict_format_of_a_scalar_fails (VStr "start") demo_cli_state).
  - exact I.
  - discriminate.
Defined.

(** ** Two more endings *)

(** X24.  When the handshake fails on the way (no fault, the transport's own
    exception), the constructor ends with that exception unwrapped, after
    both probes and the one handshake call. *)
Theorem handshake_failure_escapes_the_constructor (E : environment)
  (url user passwd : string) (w : world) (name : string) :
  urlopen E (trace w) (check_url url) = Reached ->
  urlopen E (trace w ++ [EvUrlOpen (check_url url) Reached])%list (check_url url)
    = Reached ->
  transport E
    (trace w ++ [EvUrlOpen (check_url url) Reached;
                 EvUrlOpen (check_url url) Reached])%list
    (endpoint_of E url user passwd) "dokuwiki.getVersion" []
    = CallFailure name ->
  new_DokuWikiClient E url user passwd w =
  (Raise (OtherException name),
   announced w
     [EvUrlOpen (check_url url) Reached;
      EvUrlOpen (check_url url) Reached;
      EvRpc (endpoint_of E url user passwd) "dokuwiki.getVersion" []
        (CallFailure name)]) /\
  is_DokuWikiError (OtherException name) = false.
Proof.
  intros H1 H2 H3. split; [|reflexivity].
  rewrite (new_DokuWikiClient_handshake E url user passwd w H1 H2).
  cbv zeta. rewrite H3. reflexivity.
Qed.

Lemma handshake_failure_escapes_the_constructor_witness :
  new_DokuWikiClient unplugged_wiki "http://wiki.example.org" "admin" "secret"
    initial_world =
  (Raise (OtherException "socket.error"),
   announced initial_world
     [EvUrlOpen (check_url "http://wiki.example.org") Reached;
      EvUrlOpen (check_url "http://wiki.example.org") Reached;
      EvRpc (endpoint_of unplugged_wiki "http://wiki.example.org" "admin" "secret")
        "dokuwiki.getVersion" [] (CallFailure "socket.error")]) /\
  is_DokuWikiError (OtherException "socket.error") = false.
Proof.
  apply (handshake_failure_escapes_the_constructor unplugged_wiki
           "http://wiki.example.org" "admin" "secret" initial_world
           "socket.error"); reflexivity.
Defined.



